(** * Lecture Attendance Checker: a shallow embedding of [app.py]

    The program is a Streamlit script over an SQLite database
    ([attendance.db]) and a directory of face images ([data/]).  Each
    button handler of the script is embedded as a function that takes the
    persistent state (the three tables and the image directory) and the
    widget values, and returns the new state and the message shown.

    External collaborators are parameters of the development:
    - PIL's conversion ([Image.open(..).convert("RGB")] and the JPEG
      encoding) is [PIL_rgb_jpeg]: a capture of the camera widget decodes;
    - the file system is two parameters: [realpath] says which file a
      path names, and [save_error] which exception, if any, [img.save]
      raises for a path (a missing directory, an unknown extension).  The
      script creates files only, so neither changes while it runs;
    - the Facenet comparison DeepFace runs on two readable images is
      [Facenet], which may raise;
    - werkzeug's [generate_password_hash] / [check_password_hash];
    - the clock ([datetime.utcnow()]) is an input of each handler, already
      in ISO format, since the script only stores its text. *)

From Stdlib Require Import ZArith Ascii Strings.Byte String List Bool Floats Sorted Permutation.
From stdpp Require Import gmap strings list.

Local Open Scope string_scope.
Local Open Scope Z_scope.

(** ** Python values *)

(** An image file or an uploaded capture, as its bytes. *)
Definition image := list Byte.byte.

(** Truthiness of a [str]: only the empty string is falsy. *)
Definition truthy (s : string) : bool := negb (String.eqb s EmptyString).

(** Truthiness of the value of [st.camera_input]: [None] before a capture,
    an [UploadedFile] (always truthy) after. *)
Definition captured (photo : option image) : bool :=
  match photo with Some _ => true | None => false end.

(** The result of a call that may raise; the exception is kept by the
    name of its class.  Every exception of the model is an instance of
    [Exception]. *)
Inductive py_result (A : Type) : Type :=
| Return (a : A)
| Raise (cls : string).
Arguments Return {A} a.
Arguments Raise {A} cls.

(** [posixpath.join] at two arguments. *)
Fixpoint ends_with_slash (s : string) : bool :=
  match s with
  | EmptyString => false
  | String c EmptyString => Ascii.eqb c "/"%char
  | String _ s' => ends_with_slash s'
  end.

Definition os_path_join (a b : string) : string :=
  match b with
  | String c _ =>
      if Ascii.eqb c "/"%char then b
      else if negb (truthy a) || ends_with_slash a then a ++ b
      else a ++ "/" ++ b
  | EmptyString =>
      if negb (truthy a) || ends_with_slash a then a else a ++ "/"
  end.

Definition DATA_DIR : string := "data".

(** ** The tables of [init_db] *)

Module Student.
Record row := mk {
  id : Z;
  student_id : string;
  name : string;
  email : string;
  password_hash : string;
  face_path : string;
  created_at : string
}.
End Student.

Module Lecture.
Record row := mk {
  id : Z;
  lecture_code : string;
  lecture_title : string;
  date : string
}.
End Lecture.

Module Attendance.
Record row := mk {
  id : Z;
  student_id : string;
  lecture_id : Z;
  timestamp : string
}.
End Attendance.

(** The database file.  Each table is the list of its rows in insertion
    order, which is rowid order. *)
Record database := mkdb {
  students : list Student.row;
  lectures : list Lecture.row;
  attendances : list Attendance.row
}.

(** The persistent state: the database and the image files.  A file is
    identified by its real path (two path strings may name one file), so
    [files] maps the real path of a file to its contents. *)
Record store := mkstore {
  db : database;
  files : gmap string image
}.

(** [INTEGER PRIMARY KEY AUTOINCREMENT]: the new rowid is one more than
    the largest rowid the table ever had.  No statement of the script
    deletes a row, so that is the largest rowid present (0 when empty). *)
Definition last_rowid (ids : list Z) : Z := foldr Z.max 0 ids.
Definition next_rowid (ids : list Z) : Z := last_rowid ids + 1.

(** *** Statements on [students] *)

(** The two [UNIQUE] columns of [students]. *)
Definition students_conflict (sid em : string) (s : Student.row) : bool :=
  String.eqb (Student.student_id s) sid || String.eqb (Student.email s) em.

(** [INSERT INTO students(student_id,name,email,password_hash,face_path,created_at)]:
    raises [sqlite3.IntegrityError] when a [UNIQUE] column would repeat. *)
Definition insert_student (sid nm em pwh fp ts : string) (d : database)
  : py_result database :=
  if existsb (students_conflict sid em) (students d)
  then Raise "IntegrityError"
  else Return
    {| students := students d ++
         [Student.mk (next_rowid (map Student.id (students d))) sid nm em pwh fp ts];
       lectures := lectures d;
       attendances := attendances d |}.

(** [SELECT * FROM students WHERE email=?] with [fetchone]. *)
Definition select_student_by_email (em : string) (d : database)
  : option Student.row :=
  find (fun s => String.eqb (Student.email s) em) (students d).

(** *** Statements on [lectures] *)

(** [SELECT id FROM lectures WHERE lecture_code=?] with [fetchone]. *)
Definition select_lecture_id (code : string) (d : database) : option Z :=
  Lecture.id <$> find (fun l => String.eqb (Lecture.lecture_code l) code) (lectures d).

(** [INSERT INTO lectures(lecture_code,lecture_title,date)] followed by
    [SELECT last_insert_rowid()]. *)
Definition insert_lecture (code title day : string) (d : database)
  : database * Z :=
  let rowid := next_rowid (map Lecture.id (lectures d)) in
  ({| students := students d;
      lectures := lectures d ++ [Lecture.mk rowid code title day];
      attendances := attendances d |}, rowid).

(** *** Statements on [attendances] *)

Definition attendance_matches (sid : string) (lec_id : Z) (a : Attendance.row) : bool :=
  String.eqb (Attendance.student_id a) sid && Z.eqb (Attendance.lecture_id a) lec_id.

(** [SELECT id FROM attendances WHERE student_id=? AND lecture_id=?]
    with [fetchone]. *)
Definition select_attendance_id (sid : string) (lec_id : Z) (d : database)
  : option Z :=
  Attendance.id <$> find (attendance_matches sid lec_id) (attendances d).

(** [INSERT INTO attendances(student_id,lecture_id,timestamp)].  The table
    has no [UNIQUE] constraint, and [PRAGMA foreign_keys] is left off, so
    the statement never fails. *)
Definition insert_attendance (sid : string) (lec_id : Z) (ts : string) (d : database)
  : database :=
  {| students := students d;
     lectures := lectures d;
     attendances := attendances d ++
       [Attendance.mk (next_rowid (map Attendance.id (attendances d))) sid lec_id ts] |}.

(** *** The dashboard's queries *)

(** [ORDER BY]: a stable insertion sort by the comparison [le]. *)
Fixpoint insert_by {A : Type} (le : A -> A -> bool) (x : A) (l : list A) : list A :=
  match l with
  | [] => [x]
  | y :: l' => if le x y then x :: l else y :: insert_by le x l'
  end.

Definition order_by {A : Type} (le : A -> A -> bool) (l : list A) : list A :=
  foldr (insert_by le) [] l.

(** [ORDER BY date DESC] on [TEXT]: the later date first. *)
Definition date_desc (a b : Lecture.row) : bool :=
  String.leb (Lecture.date b) (Lecture.date a).

(** [SELECT * FROM lectures ORDER BY date DESC]. *)
Definition select_lectures (d : database) : list Lecture.row :=
  order_by date_desc (lectures d).

(** A row of the attendance listing: [(a.timestamp, s.student_id, s.name)]. *)
Definition listing_row : Type := string * string * string.

Definition row_timestamp (r : listing_row) : string := fst (fst r).

(** [ORDER BY a.timestamp] on [TEXT]. *)
Definition timestamp_asc (a b : listing_row) : bool :=
  String.leb (row_timestamp a) (row_timestamp b).

(** [WHERE lecture_id=?]: the check-ins of a lecture, in insertion order. *)
Definition lecture_attendances (lec_id : Z) (d : database) : list Attendance.row :=
  List.filter (fun a => Z.eqb (Attendance.lecture_id a) lec_id) (attendances d).

(** [JOIN students s ON s.student_id=a.student_id]: the rows one check-in
    contributes, one per student row with its [student_id]. *)
Definition attendance_rows (a : Attendance.row) (d : database) : list listing_row :=
  map (fun s => (Attendance.timestamp a, Student.student_id s, Student.name s))
      (List.filter (fun s => String.eqb (Student.student_id s) (Attendance.student_id a))
                   (students d)).

(** [FROM attendances a JOIN students s ON s.student_id=a.student_id
    WHERE lecture_id=?], before ordering. *)
Definition join_attendance (lec_id : Z) (d : database) : list listing_row :=
  flat_map (fun a => attendance_rows a d) (lecture_attendances lec_id d).

(** [SELECT a.timestamp,s.student_id,s.name ... ORDER BY a.timestamp]. *)
Definition select_attendance (lec_id : Z) (d : database) : list listing_row :=
  order_by timestamp_asc (join_attendance lec_id d).

(** What the two orderings mean for a listing. *)

(** Ascending by timestamp, as [TEXT]. *)
Definition ascending (r r' : listing_row) : Prop :=
  String.leb (row_timestamp r) (row_timestamp r') = true.

(** Most recent date first. *)
Definition recent_first (l l' : Lecture.row) : Prop :=
  String.leb (Lecture.date l') (Lecture.date l) = true.

(** ** What a handler shows *)

Inductive message : Type :=
| FieldsRequired        (* error: All fields and a face capture are required. *)
| Registered            (* success: Registered successfully! You can now login. *)
| DuplicateError        (* error: Student ID or Email already exists. *)
| Welcome (who : string)  (* success: Welcome {name or student_id}! *)
| InvalidCredentials    (* error: Invalid credentials *)
| LoginFirst            (* warning: Please login first. *)
| LectureCodeMissing    (* error: Lecture code and face capture required. *)
| FaceMismatch (dist : float)   (* error: Face mismatch (distance={dist:.3f}) *)
| AlreadyCheckedIn      (* info: Already checked in for this lecture. *)
| Recorded              (* success: Check-in successful! *)
| NoLectures            (* info: No lectures yet. *)
| Table (lec_choice : string) (rows : list listing_row)
                        (* Attendance for {lec_choice}: and the table *)
| Nothing               (* the branch shows nothing *)
| LoggedInAs (em : string)  (* success: Logged in as {email} *)
| UseSidebar            (* info: Use the sidebar to register, login, and check in. *)
| Uncaught (cls : string).  (* an exception no [except] of the script catches *)

(** ** The attendance ledger (lines 138-159) *)

(** Find the lecture of a code, or create it. *)
Definition resolve_lecture (lec_code lec_title today : string) (d : database)
  : database * Z :=
  match select_lecture_id lec_code d with
  | None => insert_lecture lec_code lec_title today d
  | Some lec_id => (d, lec_id)
  end.

(** The branch on [dup]: the insert is a statement of its own, run after
    the lookup has returned. *)
Definition record_attendance (dup : option Z) (sid : string) (lec_id : Z)
    (now : string) (d : database) : database * message :=
  match dup with
  | Some _ => (d, AlreadyCheckedIn)
  | None => (insert_attendance sid lec_id now d, Recorded)
  end.

Definition ledger_check_in (sid lec_code lec_title today now : string) (d : database)
  : database * message :=
  let '(d1, lec_id) := resolve_lecture lec_code lec_title today d in
  let dup := select_attendance_id sid lec_id d1 in
  record_attendance dup sid lec_id now d1.

Section App.

(** [Image.open(image).convert("RGB")] and the JPEG encoding of [img.save]. *)
Variable PIL_rgb_jpeg : image -> image.
(** [os.path.realpath]: the file a path names. *)
Variable realpath : string -> string.
(** The exception [img.save(path)] raises, if any: [FileNotFoundError]
    when a directory of the path is missing, [ValueError] when PIL finds
    no extension, and so on. *)
Variable save_error : string -> option string.
(** The comparison [DeepFace.verify(.., model_name="Facenet")] makes of two
    images it could read: [{"verified": .., "distance": ..}] or an exception. *)
Variable Facenet : image -> image -> py_result (bool * float).
(** werkzeug: hashing with a fresh salt, and checking. *)
Variable generate_password_hash : string -> string -> string.
Variable check_password_hash : string -> string -> bool.

(** The contents of the file a path names, if there is one. *)
Definition read_file (fs : gmap string image) (path : string) : option image :=
  fs !! realpath path.

(** [save_face]: [img.save] raises, or the file the path names is written
    whether or not one was there. *)
Definition save_face (student_id : string) (img : image) (fs : gmap string image)
  : py_result (string * gmap string image) :=
  let path := os_path_join DATA_DIR (student_id ++ ".jpg") in
  match save_error path with
  | Some cls => Raise cls
  | None => Return (path, <[realpath path := PIL_rgb_jpeg img]> fs)
  end.

(** [DeepFace.verify] on two paths: a path that is no file raises
    [ValueError] before any comparison. *)
Definition DeepFace_verify (fs : gmap string image) (img1_path img2_path : string)
  : py_result (bool * float) :=
  match read_file fs img1_path, read_file fs img2_path with
  | Some img1, Some img2 => Facenet img1 img2
  | _, _ => Raise "ValueError"
  end.

(** [verify_faces]: [try ... except Exception: return False, 1.0]. *)
Definition verify_faces (fs : gmap string image) (registered_img new_img : string)
  : py_result (bool * float) :=
  match DeepFace_verify fs registered_img new_img with
  | Return result => Return result
  | Raise _ => Return (false, 1.0%float)
  end.

(** *** Register *)
Definition register_button (st : store) (sid name email pw : string)
    (photo : option image) (salt now : string) : store * message :=
  if negb (truthy sid && truthy email && truthy pw && captured photo)
  then (st, FieldsRequired)
  else
    match photo with
    | None => (st, FieldsRequired)   (* excluded by the guard *)
    | Some img =>
        match save_face sid img (files st) with
        | Raise cls => (st, Uncaught cls)   (* line 89 is outside the [try] *)
        | Return (face_path, fs) =>
            match insert_student sid name email (generate_password_hash salt pw)
                                 face_path now (db st) with
            | Return d => (mkstore d fs, Registered)
            | Raise cls =>
                if String.eqb cls "IntegrityError"
                then (mkstore (db st) fs, DuplicateError)
                else (mkstore (db st) fs, Uncaught cls)
            end
        end
    end.

(** *** Login: the new value of [st.session_state.user] and the message *)
Definition login_button (st : store) (user : option Student.row) (email pw : string)
  : option Student.row * message :=
  match select_student_by_email email (db st) with
  | Some row =>
      if check_password_hash (Student.password_hash row) pw
      then (Some row,
            Welcome (if truthy (Student.name row) then Student.name row
                     else Student.student_id row))
      else (user, InvalidCredentials)
  | None => (user, InvalidCredentials)
  end.

(** *** Check-in, for the logged-in [user] *)
Definition checkin_button (st : store) (user : Student.row)
    (lec_code lec_title : string) (photo : option image) (today now : string)
  : store * message :=
  if negb (truthy lec_code) || negb (captured photo)
  then (st, LectureCodeMissing)
  else
    match photo with
    | None => (st, LectureCodeMissing)   (* excluded by the guard *)
    | Some img =>
        match save_face (Student.student_id user ++ "_probe") img (files st) with
        | Raise cls => (st, Uncaught cls)   (* line 131 is outside any [try] *)
        | Return (probe_path, fs) =>
            match verify_faces fs (Student.face_path user) probe_path with
            | Raise cls => (mkstore (db st) fs, Uncaught cls)
            | Return (ok, dist) =>
                if negb ok
                then (mkstore (db st) fs, FaceMismatch dist)
                else
                  let '(d, msg) :=
                    ledger_check_in (Student.student_id user) lec_code lec_title
                                    today now (db st) in
                  (mkstore d fs, msg)
            end
        end
    end.

(** What lines 131-133 compute for a capture: the verdict of the
    verifier on the stored face and the probe just saved. *)
Definition probe_verdict (st : store) (user : Student.row) (img : image)
  : py_result (bool * float) :=
  match save_face (Student.student_id user ++ "_probe") img (files st) with
  | Raise cls => Raise cls
  | Return (probe_path, fs) => verify_faces fs (Student.face_path user) probe_path
  end.

(** The image files after line 131: with the probe of the capture, when
    saving it did not raise. *)
Definition probe_saved (st : store) (user : Student.row) (img : image)
  : gmap string image :=
  match save_face (Student.student_id user ++ "_probe") img (files st) with
  | Raise _ => files st
  | Return (_, fs) => fs
  end.

(** The Check-in page: the form is only there for a logged-in session. *)
Definition checkin_page (st : store) (user : option Student.row)
    (lec_code lec_title : string) (photo : option image) (today now : string)
  : store * message :=
  match user with
  | None => (st, LoginFirst)
  | Some u => checkin_button st u lec_code lec_title photo today now
  end.

End App.

(** ** Dashboard and Home *)

(** The key of a lecture in the select box: [f"{lecture_code} - {date}"]. *)
Definition lecture_label (l : Lecture.row) : string :=
  Lecture.lecture_code l ++ " - " ++ Lecture.date l.

(** The dict comprehension [lec_map]: a later lecture with the same label
    replaces the id of an earlier one. *)
Definition lec_map (lecs : list Lecture.row) : gmap string Z :=
  foldl (fun m l => <[lecture_label l := Lecture.id l]> m) ∅ lecs.

(** The Dashboard page for the label chosen in the select box.  It runs
    two [SELECT]s and nothing else. *)
Definition dashboard_page (st : store) (lec_choice : string) : store * message :=
  let lecs := select_lectures (db st) in
  let m := lec_map lecs in
  if bool_decide (m = ∅) then (st, NoLectures)
  else if truthy lec_choice then
    match m !! lec_choice with
    | Some lec_id => (st, Table lec_choice (select_attendance lec_id (db st)))
    | None => (st, Uncaught "KeyError")   (* the select box offers keys only *)
    end
  else (st, Nothing).

Definition home_page (st : store) (user : option Student.row) : store * message :=
  match user with
  | Some u => (st, LoggedInAs (Student.email u))
  | None => (st, UseSidebar)
  end.

(** ** The application as a state machine

    Streamlit keeps one [st.session_state] per browser session; the
    database and the image directory are shared.  A request is one button
    press (or page view) of one session, served from start to end. *)

Record world := mkworld {
  persistent : store;
  session_user : gmap nat Student.row   (* [st.session_state.user], [None] when absent *)
}.

Inductive request : Type :=
| Register (sid name email pw : string) (photo : option image) (salt now : string)
| Login (session : nat) (email pw : string)
| CheckIn (session : nat) (lec_code lec_title : string) (photo : option image)
          (today now : string)
| Dashboard (lec_choice : string)
| Home (session : nat).

Definition init_db : database :=
  {| students := []; lectures := []; attendances := [] |}.

Definition init_world : world :=
  {| persistent := {| db := init_db; files := ∅ |}; session_user := ∅ |}.

Section Machine.

Variable PIL_rgb_jpeg : image -> image.
Variable realpath : string -> string.
Variable save_error : string -> option string.
Variable Facenet : image -> image -> py_result (bool * float).
Variable generate_password_hash : string -> string -> string.
Variable check_password_hash : string -> string -> bool.

Definition step (w : world) (r : request) : world * message :=
  match r with
  | Register sid name email pw photo salt now =>
      let '(st, msg) :=
        register_button PIL_rgb_jpeg realpath save_error generate_password_hash
                        (persistent w) sid name email pw photo salt now in
      (mkworld st (session_user w), msg)
  | Login k email pw =>
      let '(user, msg) :=
        login_button check_password_hash (persistent w)
                     (session_user w !! k) email pw in
      (mkworld (persistent w)
               (match user with
                | Some u => <[k := u]> (session_user w)
                | None => delete k (session_user w)
                end), msg)
  | CheckIn k lec_code lec_title photo today now =>
      let '(st, msg) :=
        checkin_page PIL_rgb_jpeg realpath save_error Facenet
                     (persistent w) (session_user w !! k)
                     lec_code lec_title photo today now in
      (mkworld st (session_user w), msg)
  | Dashboard lec_choice =>
      let '(st, msg) := dashboard_page (persistent w) lec_choice in
      (mkworld st (session_user w), msg)
  | Home k =>
      let '(st, msg) := home_page (persistent w) (session_user w !! k) in
      (mkworld st (session_user w), msg)
  end.

(** The state after serving a sequence of requests one at a time. *)
Definition run (w : world) (rs : list request) : world :=
  foldl (fun w r => fst (step w r)) w rs.

End Machine.

(** ** Two check-ins whose statements interleave

    The script opens a connection per run and wraps nothing in a
    transaction that spans the lookup of line 150 and the insert of line
    155, so two sessions may each run the lookup before either runs the
    insert.  The ledger in two halves, as the statements are issued: *)

(** Lines 139-151: resolve the lecture, look for a previous check-in. *)
Definition ledger_lookup (sid lec_code lec_title today : string) (d : database)
  : database * (Z * option Z) :=
  let '(d1, lec_id) := resolve_lecture lec_code lec_title today d in
  (d1, (lec_id, select_attendance_id sid lec_id d1)).

(** Lines 152-158, with the [lec_id] and [dup] the session holds. *)
Definition ledger_commit (sid : string) (held : Z * option Z) (now : string)
    (d : database) : database * message :=
  record_attendance (snd held) sid (fst held) now d.

(** ** Properties of states *)

(** The number of attendance rows of a student for a lecture. *)
Definition attendance_count (sid : string) (lec_id : Z) (d : database) : nat :=
  length (List.filter (attendance_matches sid lec_id) (attendances d)).

(** At most one attendance row per [(student_id, lecture_id)]. *)
Definition unique_attendance (d : database) : Prop :=
  forall sid lec_id, (attendance_count sid lec_id d <= 1)%nat.

(** *** What the schema and the handlers keep true *)

(** Rowids identify rows ([PRIMARY KEY]). *)
Definition rowids_distinct (d : database) : Prop :=
  List.NoDup (map Student.id (students d)) /\
  List.NoDup (map Lecture.id (lectures d)) /\
  List.NoDup (map Attendance.id (attendances d)).

(** The two [UNIQUE] columns of [students]. *)
Definition students_distinct (d : database) : Prop :=
  List.NoDup (map Student.student_id (students d)) /\
  List.NoDup (map Student.email (students d)).

(** No two lectures share a code. *)
Definition lecture_codes_distinct (d : database) : Prop :=
  List.NoDup (map Lecture.lecture_code (lectures d)).

(** Every check-in is for a lecture of [lectures] ... *)
Definition lectures_referenced (d : database) : Prop :=
  Forall (fun a => In (Attendance.lecture_id a) (map Lecture.id (lectures d)))
         (attendances d).

(** ... and by a student of [students]. *)
Definition attendees_registered (d : database) : Prop :=
  Forall (fun a => In (Attendance.student_id a) (map Student.student_id (students d)))
         (attendances d).

(** The face path of every student is the path [save_face] gives the
    student id, and names a file. *)
Definition faces_stored (realpath : string -> string) (st : store) : Prop :=
  Forall (fun s =>
            Student.face_path s = os_path_join DATA_DIR (Student.student_id s ++ ".jpg") /\
            is_Some (read_file realpath (files st) (Student.face_path s)))
         (students (db st)).

(** The user of every session is a row of [students]. *)
Definition sessions_registered (w : world) : Prop :=
  map_Forall (fun _ u => In u (students (db (persistent w)))) (session_user w).

(** What every database the handlers produce satisfies. *)
Definition consistent (d : database) : Prop :=
  rowids_distinct d /\ students_distinct d /\ lecture_codes_distinct d /\
  lectures_referenced d /\ attendees_registered d.

Record well_formed (realpath : string -> string) (w : world) : Prop :=
  mk_well_formed {
    wf_db : consistent (db (persistent w));
    wf_faces : faces_stored realpath (persistent w);
    wf_sessions : sessions_registered w
  }.

(** No row is deleted or changed and no file is deleted: each table keeps
    its rows as a prefix and every path that named a file still does. *)
Definition grows (st st' : store) : Prop :=
  (exists k, students (db st') = (students (db st) ++ k)%list) /\
  (exists k, lectures (db st') = (lectures (db st) ++ k)%list) /\
  (exists k, attendances (db st') = (attendances (db st) ++ k)%list) /\
  dom (files st) ⊆ dom (files st').

(** ** Concrete collaborators and states, for evaluating the handlers *)

Module Sample.

(** A converter that leaves the bytes as they are. *)
Definition rgb (img : image) : image := img.

(** A file system whose directory [data] has no subdirectory. *)
Fixpoint has_slash (s : string) : bool :=
  match s with
  | EmptyString => false
  | String c s' => Ascii.eqb c "/"%char || has_slash s'
  end.

(** [Some rest] when the path is [data/rest]. *)
Definition under_data (path : string) : option string :=
  match path with
  | String "d" (String "a" (String "t" (String "a" (String "/" rest)))) => Some rest
  | _ => None
  end.

Fixpoint skip_dots (fuel : nat) (rest : string) : string :=
  match fuel, rest with
  | S n, String "." (String "/" rest') => skip_dots n rest'
  | _, _ => rest
  end.

(** [data/./x] is [data/x]; other paths name themselves. *)
Definition realpath (path : string) : string :=
  match under_data path with
  | Some rest => "data/" ++ skip_dots (String.length rest) rest
  | None => path
  end.

(** [img.save] on this file system: PIL finds no extension in the file
    name [.jpg], and a path into a directory under [data] finds no
    directory. *)
Definition save_error (path : string) : option string :=
  match under_data (realpath path) with
  | Some rest =>
      if String.eqb rest ".jpg" then Some "ValueError"
      else if has_slash rest then Some "FileNotFoundError"
      else None
  | None => None
  end.

Fixpoint same_bytes (a b : image) : bool :=
  match a, b with
  | [], [] => true
  | x :: a', y :: b' => Byte.eqb x y && same_bytes a' b'
  | _, _ => false
  end.

(** A comparison that cannot read an empty image, matches equal images
    at distance 0 and rejects different ones at distance 1. *)
Definition facenet (a b : image) : py_result (bool * float) :=
  match a, b with
  | [], _ | _, [] => Raise "ValueError"
  | _, _ =>
      if same_bytes a b then Return (true, 0.0%float)
      else Return (false, 1.0%float)
  end.

Definition hash (salt pw : string) : string := salt ++ "$" ++ pw.
Definition check (h pw : string) : bool := String.eqb h ("salt$" ++ pw).

Definition faceA : image := ["A"%byte].
Definition faceB : image := ["B"%byte].

Definition alice : Student.row :=
  Student.mk 1 "S100" "Alice" "alice@x.com" "salt$pw123" "data/S100.jpg"
             "2025-09-01T08:00:00".
Definition bob : Student.row :=
  Student.mk 2 "S200" "Bob" "bob@x.com" "salt$pw456" "data/S200.jpg"
             "2025-09-01T08:05:00".
Definition carol : Student.row :=
  Student.mk 3 "S300" EmptyString "carol@x.com" "salt$pw789" "data/S300.jpg"
             "2025-09-01T08:10:00".

Definition cs101 : Lecture.row := Lecture.mk 1 "CS101-2025-09-05" "Intro" "2025-09-05".

(** Alice is registered; nothing else has happened. *)
Definition registered : store :=
  {| db := {| students := [alice]; lectures := []; attendances := [] |};
     files := {[ "data/S100.jpg" := faceA ]} |}.

(** Alice has checked in to CS101 once. *)
Definition attended : store :=
  {| db := {| students := [alice]; lectures := [cs101];
              attendances := [Attendance.mk 1 "S100" 1 "2025-09-05T09:00:00"] |};
     files := {[ "data/S100.jpg" := faceA ]} |}.

(** Alice is registered but her image file is gone from [data/]. *)
Definition image_lost : store :=
  {| db := {| students := [alice]; lectures := []; attendances := [] |};
     files := ∅ |}.

(** Three students checked in to CS101, in this order. *)
Definition three_checkins : database :=
  {| students := [alice; bob; carol];
     lectures := [cs101];
     attendances :=
       [Attendance.mk 1 "S200" 1 "2025-09-05T09:00:01";
        Attendance.mk 2 "S100" 1 "2025-09-05T09:00:02.500000";
        Attendance.mk 3 "S300" 1 "2025-09-05T09:01:00"] |}.

(** Alice is registered and logged in from session 0. *)
Definition logged_in : world :=
  {| persistent := registered; session_user := {[ 0%nat := alice ]} |}.

(** A student whose id is the name of Alice's probe. *)
Definition shadow : Student.row :=
  Student.mk 2 "S100_probe" "Shadow" "shadow@x.com" "salt$pw000"
             "data/S100_probe.jpg" "2025-09-01T08:20:00".

Definition shadowed : store :=
  {| db := {| students := [alice; shadow]; lectures := []; attendances := [] |};
     files := {[ "data/S100.jpg" := faceA; "data/S100_probe.jpg" := faceB ]} |}.

End Sample.

(** * Proofs *)

(** ** Facts about the statements *)

Lemma truthy_true (s : string) : truthy s = true <-> s <> EmptyString.
Proof.
  unfold truthy. rewrite negb_true_iff. split.
  - intros H ->. discriminate.
  - intros H. apply String.eqb_neq. exact H.
Qed.

Lemma last_rowid_ge (ids : list Z) (i : Z) : In i ids -> i <= last_rowid ids.
Proof.
  induction ids as [|j ids IH]; simpl; [tauto|].
  intros [->|Hin]; [lia|]. specialize (IH Hin). lia.
Qed.

Lemma attendance_matches_spec sid lec_id a :
  attendance_matches sid lec_id a = true <->
  Attendance.student_id a = sid /\ Attendance.lecture_id a = lec_id.
Proof.
  unfold attendance_matches.
  rewrite andb_true_iff, String.eqb_eq, Z.eqb_eq. tauto.
Qed.

(** The lookup finds a row exactly when the pair has one. *)
Lemma select_attendance_none sid lec_id d :
  select_attendance_id sid lec_id d = None <-> attendance_count sid lec_id d = 0%nat.
Proof.
  unfold select_attendance_id, attendance_count.
  induction (attendances d) as [|a l IH]; simpl; [tauto|].
  destruct (attendance_matches sid lec_id a); simpl.
  - split; discriminate.
  - exact IH.
Qed.

Lemma select_attendance_some sid lec_id d :
  is_Some (select_attendance_id sid lec_id d) <-> (0 < attendance_count sid lec_id d)%nat.
Proof.
  destruct (select_attendance_id sid lec_id d) eqn:E.
  - split; [intros _|eauto].
    destruct (attendance_count sid lec_id d) eqn:C; [|lia].
    apply select_attendance_none in C. congruence.
  - apply select_attendance_none in E. rewrite E.
    split; [intros [? ?]; discriminate | lia].
Qed.

Lemma attendance_count_insert sid lec_id ts d sid' lec_id' :
  attendance_count sid' lec_id' (insert_attendance sid lec_id ts d) =
  (attendance_count sid' lec_id' d +
   if attendance_matches sid' lec_id'
        (Attendance.mk (next_rowid (map Attendance.id (attendances d))) sid lec_id ts)
   then 1 else 0)%nat.
Proof.
  unfold attendance_count, insert_attendance; simpl.
  rewrite List.filter_app, length_app. simpl.
  destruct (attendance_matches sid' lec_id' _); reflexivity.
Qed.

Lemma resolve_lecture_attendances code title today d :
  attendances (fst (resolve_lecture code title today d)) = attendances d.
Proof.
  unfold resolve_lecture. destruct (select_lecture_id code d); reflexivity.
Qed.

Lemma resolve_lecture_students code title today d :
  students (fst (resolve_lecture code title today d)) = students d.
Proof.
  unfold resolve_lecture. destruct (select_lecture_id code d); reflexivity.
Qed.

Lemma attendance_count_resolve sid lec_id code title today d :
  attendance_count sid lec_id (fst (resolve_lecture code title today d)) =
  attendance_count sid lec_id d.
Proof. unfold attendance_count. now rewrite resolve_lecture_attendances. Qed.

(** ** The face verifier *)

Section Verifier.

Variable realpath : string -> string.
Variable Facenet : image -> image -> py_result (bool * float).

(** C3.  Whatever the two inputs, [verify_faces] returns and never
    raises; and when the underlying comparison ([DeepFace.verify])
    raises, what it returns is [matched = False] with the sentinel
    distance [1.0], so a failure of the verifier is never a match. *)
Theorem verify_faces_fails_closed
    (fs : gmap string image) (registered_img new_img : string) :
  (exists matched dist,
     verify_faces realpath Facenet fs registered_img new_img
       = Return (matched, dist)) /\
  (forall cls,
     DeepFace_verify realpath Facenet fs registered_img new_img = Raise cls ->
     verify_faces realpath Facenet fs registered_img new_img
       = Return (false, 1.0%float)).
Proof.
  unfold verify_faces. split.
  - destruct (DeepFace_verify realpath Facenet fs registered_img new_img)
      as [[m d]|cls]; eauto.
  - intros cls ->. reflexivity.
Qed.

End Verifier.

(** The comparison raises on an unreadable probe; the verifier answers
    [(False, 1.0)]. *)
Lemma verify_faces_fails_closed_witness :
  DeepFace_verify Sample.realpath Sample.facenet
                  {[ "data/S100.jpg" := Sample.faceA; "data/S100_probe.jpg" := [] ]}
                  "data/S100.jpg" "data/S100_probe.jpg" = Raise "ValueError" /\
  verify_faces Sample.realpath Sample.facenet
               {[ "data/S100.jpg" := Sample.faceA; "data/S100_probe.jpg" := [] ]}
               "data/S100.jpg" "data/S100_probe.jpg" = Return (false, 1.0%float).
Proof.
  split; [vm_compute; reflexivity|].
  apply (proj2 (verify_faces_fails_closed Sample.realpath Sample.facenet _ _ _)
               "ValueError").
  vm_compute; reflexivity.
Defined.

(** ** Ordering of [TEXT] values *)

Lemma ascii_compare_refl (a : ascii) : Ascii.compare a a = Eq.
Proof. apply N.compare_refl. Qed.

Lemma ascii_compare_lt_trans (a b c : ascii) :
  Ascii.compare a b = Lt -> Ascii.compare b c = Lt -> Ascii.compare a c = Lt.
Proof.
  unfold Ascii.compare. rewrite !N.compare_lt_iff. apply N.lt_trans.
Qed.

Lemma string_compare_refl (s : string) : String.compare s s = Eq.
Proof.
  induction s as [|a s IH]; simpl; [reflexivity|].
  now rewrite ascii_compare_refl.
Qed.

Lemma string_compare_lt_trans (s1 : string) :
  forall s2 s3,
    String.compare s1 s2 = Lt -> String.compare s2 s3 = Lt ->
    String.compare s1 s3 = Lt.
Proof.
  induction s1 as [|a s1 IH]; intros [|b s2] [|c s3]; simpl; try congruence.
  destruct (Ascii.compare a b) eqn:Eab; try discriminate;
    destruct (Ascii.compare b c) eqn:Ebc; try discriminate; intros H12 H23.
  - apply Ascii.compare_eq_iff in Eab, Ebc. subst.
    rewrite ascii_compare_refl. eauto.
  - apply Ascii.compare_eq_iff in Eab. subst. now rewrite Ebc.
  - apply Ascii.compare_eq_iff in Ebc. subst. now rewrite Eab.
  - now rewrite (ascii_compare_lt_trans _ _ _ Eab Ebc).
Qed.

Lemma string_leb_cases (s1 s2 : string) :
  String.leb s1 s2 = true <-> String.compare s1 s2 = Lt \/ s1 = s2.
Proof.
  unfold String.leb. split.
  - destruct (String.compare s1 s2) eqn:E; try discriminate; intros _.
    + right. now apply String.compare_eq_iff.
    + now left.
  - intros [->| ->]; [reflexivity|]. now rewrite string_compare_refl.
Qed.

Lemma string_leb_trans (s1 s2 s3 : string) :
  String.leb s1 s2 = true -> String.leb s2 s3 = true -> String.leb s1 s3 = true.
Proof.
  rewrite !string_leb_cases.
  intros [H12| ->] [H23| ->]; eauto using string_compare_lt_trans.
Qed.

Lemma string_ltb_leb (s1 s2 : string) :
  String.ltb s1 s2 = true -> String.leb s1 s2 = true.
Proof.
  unfold String.ltb, String.leb. now destruct (String.compare s1 s2).
Qed.

(** ** [ORDER BY] sorts and keeps the rows *)

Section OrderBy.

Context {A : Type} (le : A -> A -> bool).
Hypothesis le_total : forall a b, le a b = false -> le b a = true.
Hypothesis le_trans : forall a b c, le a b = true -> le b c = true -> le a c = true.

Let lep (a b : A) : Prop := le a b = true.

Lemma insert_by_perm (x : A) (l : list A) : Permutation (insert_by le x l) (x :: l).
Proof.
  induction l as [|y l IH]; simpl; [reflexivity|].
  destruct (le x y); [reflexivity|].
  rewrite IH. apply perm_swap.
Qed.

Lemma order_by_perm (l : list A) : Permutation (order_by le l) l.
Proof.
  induction l as [|x l IH]; simpl; [reflexivity|].
  rewrite insert_by_perm. now apply perm_skip.
Qed.

Lemma insert_by_sorted (x : A) (l : list A) :
  StronglySorted lep l -> StronglySorted lep (insert_by le x l).
Proof.
  induction 1 as [|y l Hs IH Hy]; simpl.
  - repeat constructor.
  - destruct (le x y) eqn:E.
    + constructor; [now constructor|].
      constructor; [exact E|].
      eapply Forall_impl; [exact Hy|]. intros z Hz. exact (le_trans _ _ _ E Hz).
    + constructor; [exact IH|].
      eapply Permutation_Forall; [symmetry; apply insert_by_perm|].
      constructor; [now apply le_total|exact Hy].
Qed.

Lemma order_by_sorted (l : list A) : StronglySorted lep (order_by le l).
Proof.
  induction l as [|x l IH]; simpl; [constructor|]. now apply insert_by_sorted.
Qed.

(** Rows already in order come back as they are. *)
Lemma order_by_already (l : list A) : Sorted lep l -> order_by le l = l.
Proof.
  induction 1 as [|x l Hs IH Hx]; simpl; [reflexivity|].
  rewrite IH. destruct Hx as [|y l Hxy]; simpl; [reflexivity|].
  unfold lep in Hxy. now rewrite Hxy.
Qed.

End OrderBy.

(** ** Check-in *)

Section Checkin.

Variable PIL_rgb_jpeg : image -> image.
Variable realpath : string -> string.
Variable save_error : string -> option string.
Variable Facenet : image -> image -> py_result (bool * float).

Local Abbreviation checkin := (checkin_button PIL_rgb_jpeg realpath save_error Facenet).
Local Abbreviation verdict := (probe_verdict PIL_rgb_jpeg realpath save_error Facenet).
Local Abbreviation saved := (probe_saved PIL_rgb_jpeg realpath save_error).

(** Past the input guard the handler is a case analysis on the verdict. *)
Lemma checkin_button_guarded st user lec_code lec_title img today now :
  truthy lec_code = true ->
  checkin st user lec_code lec_title (Some img) today now =
  match verdict st user img with
  | Raise cls => (mkstore (db st) (saved st user img), Uncaught cls)
  | Return (ok, dist) =>
      if negb ok then (mkstore (db st) (saved st user img), FaceMismatch dist)
      else
        let '(d, msg) :=
          ledger_check_in (Student.student_id user) lec_code lec_title
                          today now (db st) in
        (mkstore d (saved st user img), msg)
  end.
Proof.
  intros Hcode. unfold checkin_button, probe_verdict, probe_saved.
  rewrite Hcode. simpl.
  destruct (save_face _ _ _ _ _ _) as [[probe_path fs]|cls]; [reflexivity|].
  now destruct st.
Qed.

(** C7.  A check-in with an empty lecture code is refused with the
    error of the input guard ("Lecture code and face capture
    required."), whatever the other inputs are, and the whole store
    comes back as it was: no probe is saved, so nothing is verified, and
    neither [lectures] nor [attendances] is written. *)
Theorem checkin_empty_code_refused st user lec_title photo today now :
  checkin_button PIL_rgb_jpeg realpath save_error
      Facenet st user EmptyString lec_title photo today now
    = (st, LectureCodeMissing) /\
  lectures (db (fst (checkin_button PIL_rgb_jpeg realpath save_error
                        Facenet st user EmptyString lec_title photo today now)))
    = lectures (db st) /\
  attendances (db (fst (checkin_button PIL_rgb_jpeg realpath save_error
                           Facenet st user EmptyString lec_title photo today now)))
    = attendances (db st).
Proof. repeat split. Qed.

(** C4.  If the verifier answers [matched = False] for the capture of a
    check-in, the handler leaves [lectures] and [attendances] (indeed
    the whole database) as they were, whatever the lecture code is, and
    past the input guard it reports the mismatch with that distance. *)
Theorem checkin_mismatch_writes_nothing
    st user lec_code lec_title img today now dist :
  verdict st user img = Return (false, dist) ->
  let st' := fst (checkin st user lec_code lec_title (Some img) today now) in
  lectures (db st') = lectures (db st) /\
  attendances (db st') = attendances (db st) /\
  db st' = db st /\
  (truthy lec_code = true ->
   snd (checkin st user lec_code lec_title (Some img) today now) = FaceMismatch dist).
Proof.
  intros Hv. destruct (truthy lec_code) eqn:Hcode.
  - rewrite checkin_button_guarded, Hv by exact Hcode. simpl. auto.
  - unfold checkin_button. rewrite Hcode. simpl. repeat split. discriminate.
Qed.

(** C6 (as the code has it).  If the stored face path of the logged-in
    student names no file when the verifier runs (that is, among the
    files [save_face] leaves once the probe is saved), the comparison
    raises inside [verify_faces], which answers [(False, 1.0)]: the
    check-in reports a face mismatch at distance 1.0, the very message of
    an ordinary mismatch, and writes nothing to the database. *)
Theorem checkin_lost_image_is_mismatch
    st user lec_code lec_title img today now probe_path fs :
  truthy lec_code = true ->
  save_face PIL_rgb_jpeg realpath save_error
            (Student.student_id user ++ "_probe") img (files st)
    = Return (probe_path, fs) ->
  read_file realpath fs (Student.face_path user) = None ->
  checkin st user lec_code lec_title (Some img) today now =
  (mkstore (db st) fs, FaceMismatch 1.0%float).
Proof.
  intros Hcode Hsave Hlost. rewrite checkin_button_guarded by exact Hcode.
  unfold probe_verdict, probe_saved. rewrite Hsave.
  unfold verify_faces, DeepFace_verify. rewrite Hlost. reflexivity.
Qed.

End Checkin.

(** Alice is registered and Bob's face is captured: the verifier says no,
    and the ledger is not touched. *)
Lemma checkin_mismatch_writes_nothing_witness :
  probe_verdict Sample.rgb Sample.realpath Sample.save_error Sample.facenet
                Sample.registered Sample.alice Sample.faceB
    = Return (false, 1.0%float) /\
  let st' := fst (checkin_button Sample.rgb Sample.realpath Sample.save_error
                    Sample.facenet Sample.registered
                    Sample.alice "CS101-2025-09-05" "Intro" (Some Sample.faceB)
                    "2025-09-05" "2025-09-05T09:00:00") in
  lectures (db st') = lectures (db Sample.registered) /\
  attendances (db st') = attendances (db Sample.registered) /\
  db st' = db Sample.registered /\
  (truthy "CS101-2025-09-05" = true ->
   snd (checkin_button Sample.rgb Sample.realpath Sample.save_error
          Sample.facenet Sample.registered
          Sample.alice "CS101-2025-09-05" "Intro" (Some Sample.faceB)
          "2025-09-05" "2025-09-05T09:00:00") = FaceMismatch 1.0%float).
Proof.
  split; [vm_compute; reflexivity|].
  apply (checkin_mismatch_writes_nothing Sample.rgb Sample.realpath
           Sample.save_error Sample.facenet).
  vm_compute; reflexivity.
Defined.

(** C6 (as stated) fails.  Alice's image file is gone, she captures her own
    face, and the check-in answers "Face mismatch" at distance 1.0; with
    the file in place and a stranger's face captured the answer is the
    same message: the lost image is not told apart from a mismatch. *)
Lemma checkin_lost_image_not_distinguished :
  read_file Sample.realpath (files Sample.image_lost)
            (Student.face_path Sample.alice) = None /\
  snd (checkin_button Sample.rgb Sample.realpath Sample.save_error
         Sample.facenet Sample.image_lost
         Sample.alice "CS101-2025-09-05" "Intro" (Some Sample.faceA)
         "2025-09-05" "2025-09-05T09:00:00") = FaceMismatch 1.0%float /\
  read_file Sample.realpath (files Sample.registered)
            (Student.face_path Sample.alice) = Some Sample.faceA /\
  snd (checkin_button Sample.rgb Sample.realpath Sample.save_error
         Sample.facenet Sample.registered
         Sample.alice "CS101-2025-09-05" "Intro" (Some Sample.faceB)
         "2025-09-05" "2025-09-05T09:00:00") = FaceMismatch 1.0%float.
Proof. repeat split; vm_compute; reflexivity. Qed.

Lemma checkin_lost_image_is_mismatch_witness :
  checkin_button Sample.rgb Sample.realpath Sample.save_error Sample.facenet
    Sample.image_lost
    Sample.alice "CS101-2025-09-05" "Intro" (Some Sample.faceA)
    "2025-09-05" "2025-09-05T09:00:00" =
  (mkstore (db Sample.image_lost) {[ "data/S100_probe.jpg" := Sample.faceA ]},
   FaceMismatch 1.0%float).
Proof.
  apply (checkin_lost_image_is_mismatch Sample.rgb Sample.realpath
           Sample.save_error Sample.facenet Sample.image_lost Sample.alice
           "CS101-2025-09-05" "Intro" Sample.faceA
           "2025-09-05" "2025-09-05T09:00:00" "data/S100_probe.jpg");
    vm_compute; reflexivity.
Defined.

(** ** The ledger: one row per student and lecture *)

Lemma find_app_last {A : Type} (f : A -> bool) (l : list A) (x : A) :
  find f l = None -> f x = true -> find f (l ++ [x]) = Some x.
Proof.
  intros Hl Hx. induction l as [|y l IH]; simpl in *.
  - now rewrite Hx.
  - destruct (f y); [discriminate|auto].
Qed.

(** Once resolved, a code resolves to the same lecture. *)
Lemma select_lecture_after_resolve code title today d :
  select_lecture_id code (fst (resolve_lecture code title today d)) =
  Some (snd (resolve_lecture code title today d)).
Proof.
  unfold resolve_lecture.
  destruct (select_lecture_id code d) as [lec_id|] eqn:E; simpl; [exact E|].
  unfold select_lecture_id in *; simpl.
  destruct (find _ (lectures d)) eqn:F; [discriminate|].
  rewrite (find_app_last _ _ _ F); [reflexivity|]. simpl. apply String.eqb_refl.
Qed.

Lemma resolve_lecture_known code title today d lec_id :
  select_lecture_id code d = Some lec_id ->
  resolve_lecture code title today d = (d, lec_id).
Proof. unfold resolve_lecture. now intros ->. Qed.

Lemma select_lecture_insert_attendance code sid lec_id ts d :
  select_lecture_id code (insert_attendance sid lec_id ts d) = select_lecture_id code d.
Proof. reflexivity. Qed.

(** The first check-in of a student for a lecture inserts a row. *)
Lemma ledger_check_in_fresh sid code title today now d :
  attendance_count sid (snd (resolve_lecture code title today d)) d = 0%nat ->
  ledger_check_in sid code title today now d =
  (insert_attendance sid (snd (resolve_lecture code title today d)) now
                     (fst (resolve_lecture code title today d)), Recorded).
Proof.
  intros Hfresh. unfold ledger_check_in.
  rewrite <- (attendance_count_resolve _ _ code title today) in Hfresh.
  apply select_attendance_none in Hfresh.
  destruct (resolve_lecture code title today d) as [d1 lec_id]; simpl in *.
  now rewrite Hfresh.
Qed.

(** A check-in for a pair that has a row inserts nothing. *)
Lemma ledger_check_in_again sid code title today now d lec_id :
  select_lecture_id code d = Some lec_id ->
  (0 < attendance_count sid lec_id d)%nat ->
  ledger_check_in sid code title today now d = (d, AlreadyCheckedIn).
Proof.
  intros Hlec Hcount. unfold ledger_check_in.
  rewrite (resolve_lecture_known _ _ _ _ _ Hlec).
  apply select_attendance_some in Hcount. destruct Hcount as [i Hi].
  now rewrite Hi.
Qed.

Lemma attendance_matches_refl sid lec_id i ts :
  attendance_matches sid lec_id (Attendance.mk i sid lec_id ts) = true.
Proof. apply attendance_matches_spec. now simpl. Qed.

Section CheckinTwice.

Variable PIL_rgb_jpeg : image -> image.
Variable realpath : string -> string.
Variable save_error : string -> option string.
Variable Facenet : image -> image -> py_result (bool * float).

Local Abbreviation checkin := (checkin_button PIL_rgb_jpeg realpath save_error Facenet).
Local Abbreviation verdict := (probe_verdict PIL_rgb_jpeg realpath save_error Facenet).

(** C1 (as the code has it).  A student who has no attendance row for the
    lecture a code resolves to checks in twice in a row with that code,
    the verifier accepting both captures: the first call answers
    [Recorded], the second [AlreadyCheckedIn], and afterwards the code
    resolves to that lecture and [attendances] holds exactly one row for
    the student and the lecture. *)
Theorem checkin_twice_recorded_then_already
    st user lec_code lec_title lec_title' img img' today now today' now' dist dist' :
  let sid := Student.student_id user in
  let lec_id := snd (resolve_lecture lec_code lec_title today (db st)) in
  let first := checkin st user lec_code lec_title (Some img) today now in
  let second := checkin (fst first) user lec_code lec_title' (Some img') today' now' in
  truthy lec_code = true ->
  attendance_count sid lec_id (db st) = 0%nat ->
  verdict st user img = Return (true, dist) ->
  verdict (fst first) user img' = Return (true, dist') ->
  snd first = Recorded /\
  snd second = AlreadyCheckedIn /\
  select_lecture_id lec_code (db (fst second)) = Some lec_id /\
  attendance_count sid lec_id (db (fst second)) = 1%nat.
Proof.
  intros sid lec_id first second Hcode Hfresh Hv1 Hv2.
  assert (Hfirst : first =
            (mkstore (insert_attendance sid lec_id now
                        (fst (resolve_lecture lec_code lec_title today (db st))))
                     (probe_saved PIL_rgb_jpeg realpath save_error
                         st user img), Recorded)).
  { subst first. rewrite checkin_button_guarded, Hv1 by exact Hcode. simpl.
    fold sid. now rewrite ledger_check_in_fresh. }
  assert (Hlec : select_lecture_id lec_code (db (fst first)) = Some lec_id).
  { rewrite Hfirst. simpl. rewrite select_lecture_insert_attendance.
    apply select_lecture_after_resolve. }
  assert (Hone : attendance_count sid lec_id (db (fst first)) = 1%nat).
  { rewrite Hfirst. simpl.
    rewrite attendance_count_insert, attendance_matches_refl, attendance_count_resolve.
    now rewrite Hfresh. }
  assert (Hsecond : second = (mkstore (db (fst first))
                                (probe_saved PIL_rgb_jpeg realpath save_error
                                    (fst first) user img'),
                              AlreadyCheckedIn)).
  { subst second. rewrite checkin_button_guarded, Hv2 by exact Hcode. simpl.
    fold sid. rewrite (ledger_check_in_again _ _ _ _ _ _ lec_id); [reflexivity|exact Hlec|].
    rewrite Hone. lia. }
  rewrite Hsecond. simpl. rewrite Hfirst at 1. simpl. auto.
Qed.

End CheckinTwice.

(** C1 (as stated) fails.  Alice has already checked in to CS101; she
    checks in twice more, her face accepted both times, and the first of
    the two calls answers [AlreadyCheckedIn], not [Recorded]. *)
Lemma checkin_twice_after_an_earlier_one :
  let first := checkin_button Sample.rgb Sample.realpath Sample.save_error
      Sample.facenet Sample.attended
      Sample.alice "CS101-2025-09-05" "Intro" (Some Sample.faceA)
      "2025-09-05" "2025-09-05T10:00:00" in
  let second := checkin_button Sample.rgb Sample.realpath Sample.save_error
      Sample.facenet (fst first)
      Sample.alice "CS101-2025-09-05" "Intro" (Some Sample.faceA)
      "2025-09-05" "2025-09-05T10:00:05" in
  probe_verdict Sample.rgb Sample.realpath Sample.save_error
      Sample.facenet Sample.attended Sample.alice Sample.faceA
    = Return (true, 0.0%float) /\
  probe_verdict Sample.rgb Sample.realpath Sample.save_error
      Sample.facenet (fst first) Sample.alice Sample.faceA
    = Return (true, 0.0%float) /\
  snd first = AlreadyCheckedIn /\
  snd second = AlreadyCheckedIn /\
  attendance_count "S100" 1 (db (fst second)) = 1%nat.
Proof. repeat split; vm_compute; reflexivity. Qed.

(** Alice, just registered, checks in to a new lecture twice. *)
Lemma checkin_twice_recorded_then_already_witness :
  let first := checkin_button Sample.rgb Sample.realpath Sample.save_error
      Sample.facenet Sample.registered
      Sample.alice "CS101-2025-09-05" "Intro" (Some Sample.faceA)
      "2025-09-05" "2025-09-05T09:00:00" in
  let second := checkin_button Sample.rgb Sample.realpath Sample.save_error
      Sample.facenet (fst first)
      Sample.alice "CS101-2025-09-05" "Intro" (Some Sample.faceA)
      "2025-09-05" "2025-09-05T09:00:05" in
  snd first = Recorded /\
  snd second = AlreadyCheckedIn /\
  select_lecture_id "CS101-2025-09-05" (db (fst second)) = Some 1 /\
  attendance_count "S100" 1 (db (fst second)) = 1%nat.
Proof.
  apply (checkin_twice_recorded_then_already Sample.rgb Sample.realpath
           Sample.save_error Sample.facenet
           Sample.registered Sample.alice "CS101-2025-09-05" "Intro" "Intro"
           Sample.faceA Sample.faceA "2025-09-05" "2025-09-05T09:00:00"
           "2025-09-05" "2025-09-05T09:00:05" 0.0%float 0.0%float);
    vm_compute; reflexivity.
Defined.

(** ** The uniqueness invariant, one request at a time *)

Lemma unique_attendance_same d d' :
  attendances d' = attendances d -> unique_attendance d -> unique_attendance d'.
Proof. unfold unique_attendance, attendance_count. now intros ->. Qed.

Lemma record_attendance_unique sid lec_id now d :
  unique_attendance d ->
  unique_attendance
    (fst (record_attendance (select_attendance_id sid lec_id d) sid lec_id now d)).
Proof.
  intros Hu. destruct (select_attendance_id sid lec_id d) eqn:E; simpl; [exact Hu|].
  apply select_attendance_none in E.
  intros sid' lec_id'. rewrite attendance_count_insert.
  destruct (attendance_matches sid' lec_id' _) eqn:M.
  - apply attendance_matches_spec in M. simpl in M. destruct M as [-> ->].
    rewrite E. lia.
  - specialize (Hu sid' lec_id'). lia.
Qed.

Lemma ledger_check_in_unique sid code title today now d :
  unique_attendance d ->
  unique_attendance (fst (ledger_check_in sid code title today now d)).
Proof.
  intros Hu. unfold ledger_check_in.
  pose proof (resolve_lecture_attendances code title today d) as Ha.
  destruct (resolve_lecture code title today d) as [d1 lec_id]; simpl in Ha.
  apply record_attendance_unique. exact (unique_attendance_same _ _ Ha Hu).
Qed.

Lemma insert_student_attendances sid nm em pwh fp ts d d' :
  insert_student sid nm em pwh fp ts d = Return d' ->
  attendances d' = attendances d /\ lectures d' = lectures d.
Proof.
  unfold insert_student. destruct (existsb _ _); [discriminate|].
  intros [= <-]. now simpl.
Qed.

Section Invariant.

Variable PIL_rgb_jpeg : image -> image.
Variable realpath : string -> string.
Variable save_error : string -> option string.
Variable Facenet : image -> image -> py_result (bool * float).
Variable generate_password_hash : string -> string -> string.
Variable check_password_hash : string -> string -> bool.

Lemma register_button_ledger st sid name email pw photo salt now :
  let st' := fst (register_button PIL_rgb_jpeg realpath save_error
                     generate_password_hash
                    st sid name email pw photo salt now) in
  attendances (db st') = attendances (db st) /\ lectures (db st') = lectures (db st).
Proof.
  unfold register_button.
  destruct (negb _); [now simpl|]. destruct photo as [img|]; [|now simpl].
  destruct (save_face _ _ _ _ _ _) as [[face_path fs]|cls0]; [|now simpl].
  destruct (insert_student _ _ _ _ _ _ _) as [d'|cls] eqn:E.
  - simpl. eapply insert_student_attendances, E.
  - destruct (String.eqb cls _); now simpl.
Qed.

Lemma checkin_button_unique st user lec_code lec_title photo today now :
  unique_attendance (db st) ->
  unique_attendance
    (db (fst (checkin_button PIL_rgb_jpeg realpath save_error
                 Facenet st user lec_code lec_title photo today now))).
Proof.
  intros Hu. unfold checkin_button.
  destruct (negb (truthy lec_code) || negb (captured photo)); [exact Hu|].
  destruct photo as [img|]; [|exact Hu].
  destruct (save_face _ _ _ _ _ _) as [[probe_path fs]|cls0]; [|exact Hu].
  destruct (verify_faces _ _ _ _ _) as [[ok dist]|cls]; [|exact Hu].
  destruct ok; simpl; [|exact Hu].
  pose proof (ledger_check_in_unique (Student.student_id user) lec_code lec_title
                today now (db st) Hu) as Hu'.
  destruct (ledger_check_in _ _ _ _ _ _) as [d msg]. exact Hu'.
Qed.

Lemma dashboard_page_store st lec_choice : fst (dashboard_page st lec_choice) = st.
Proof.
  unfold dashboard_page. destruct (bool_decide _); [reflexivity|].
  destruct (truthy lec_choice); [|reflexivity].
  now destruct (lec_map _ !! lec_choice).
Qed.

Lemma step_unique w r :
  unique_attendance (db (persistent w)) ->
  unique_attendance
    (db (persistent (fst (step PIL_rgb_jpeg realpath save_error
                             Facenet generate_password_hash
                               check_password_hash w r)))).
Proof.
  intros Hu. destruct r as [sid name email pw photo salt now | k email pw
                           | k lec_code lec_title photo today now | lec_choice | k];
    simpl.
  - pose proof (register_button_ledger (persistent w) sid name email pw photo salt now)
      as [Ha _].
    destruct (register_button _ _ _ _ _ _ _ _ _ _) as [st msg]. simpl in *.
    exact (unique_attendance_same _ _ Ha Hu).
  - destruct (login_button _ _ _ _ _) as [user msg]. exact Hu.
  - unfold checkin_page. destruct (session_user w !! k) as [u|]; [|exact Hu].
    pose proof (checkin_button_unique (persistent w) u lec_code lec_title photo
                  today now Hu) as Hu'.
    destruct (checkin_button _ _ _ _ _ _ _ _ _) as [st msg]. exact Hu'.
  - pose proof (dashboard_page_store (persistent w) lec_choice) as Hd.
    destruct (dashboard_page _ _) as [st msg]. simpl in *. now subst.
  - unfold home_page. now destruct (session_user w !! k).
Qed.

Lemma run_unique rs : forall w,
  unique_attendance (db (persistent w)) ->
  unique_attendance
    (db (persistent (run PIL_rgb_jpeg realpath save_error Facenet
                         generate_password_hash check_password_hash w rs))).
Proof.
  induction rs as [|r rs IH]; intros w Hu; simpl; [exact Hu|].
  apply IH, step_unique, Hu.
Qed.

(** C2 (as the code has it).  In every state reached from the empty
    database by serving requests one at a time (register, login, check-in,
    dashboard, home, from any sessions), [attendances] has at most one row
    per student and lecture.  The check-in path gets this from a lookup
    followed by a separate insert: the ledger is the composition of its
    two halves, and the second half, holding "no row found", inserts
    whatever the table contains by then. *)
Theorem run_unique_attendance (rs : list request) :
  unique_attendance
    (db (persistent (run PIL_rgb_jpeg realpath save_error Facenet
                         generate_password_hash check_password_hash init_world rs))) /\
  (forall sid lec_code lec_title today now d,
     ledger_check_in sid lec_code lec_title today now d =
     let '(d1, held) := ledger_lookup sid lec_code lec_title today d in
     ledger_commit sid held now d1) /\
  (forall sid lec_id now d,
     ledger_commit sid (lec_id, None) now d =
     (insert_attendance sid lec_id now d, Recorded)).
Proof.
  split; [|split].
  - apply run_unique. intros sid lec_id. unfold attendance_count. simpl. lia.
  - intros. unfold ledger_check_in, ledger_lookup, ledger_commit.
    now destruct (resolve_lecture _ _ _ _).
  - reflexivity.
Qed.

End Invariant.

(** C2 (as stated) fails.  Two sessions of Alice check in to CS101 and
    their statements interleave: both run the lookup of line 150 and find
    no row, then both run the insert of line 155.  Both are answered
    [Recorded] and [attendances] ends with two rows for the pair: the
    insert is not conditional and no constraint of the table refuses it. *)
Lemma interleaved_checkins_insert_twice :
  let d0 := db Sample.registered in
  let a := ledger_lookup "S100" "CS101-2025-09-05" "Intro" "2025-09-05" d0 in
  let b := ledger_lookup "S100" "CS101-2025-09-05" "Intro" "2025-09-05" (fst a) in
  let a' := ledger_commit "S100" (snd a) "2025-09-05T09:00:00" (fst b) in
  let b' := ledger_commit "S100" (snd b) "2025-09-05T09:00:01" (fst a') in
  snd a' = Recorded /\ snd b' = Recorded /\
  attendance_count "S100" 1 (fst b') = 2%nat /\
  attendances (fst b') =
    [Attendance.mk 1 "S100" 1 "2025-09-05T09:00:00";
     Attendance.mk 2 "S100" 1 "2025-09-05T09:00:01"].
Proof. repeat split. Qed.

(** ** Registration *)

Lemma students_conflict_free sid em (l : list Student.row) :
  existsb (students_conflict sid em) l = false <->
  forall s, In s l -> Student.student_id s <> sid /\ Student.email s <> em.
Proof.
  induction l as [|s l IH]; simpl.
  - split; [intros _ ? []|reflexivity].
  - rewrite orb_false_iff, IH. unfold students_conflict.
    rewrite orb_false_iff, !String.eqb_neq. split.
    + intros [Hs Hl] s' [<-|Hin]; auto.
    + intros H. split; [apply H; now left|]. intros s' Hs'. apply H. now right.
Qed.

Section Registration.

Variable PIL_rgb_jpeg : image -> image.
Variable realpath : string -> string.
Variable save_error : string -> option string.
Variable generate_password_hash : string -> string -> string.

Local Abbreviation register :=
  (register_button PIL_rgb_jpeg realpath save_error generate_password_hash).

(** X10.  Past the guard and once [save_face] has written the capture, a
    registration that repeats a student id or an email is refused and the
    three tables stay as they were; the image written stays. *)
Lemma register_duplicate st sid name email pw img salt now :
  truthy sid = true -> truthy email = true -> truthy pw = true ->
  save_error (os_path_join DATA_DIR (sid ++ ".jpg")) = None ->
  existsb (students_conflict sid email) (students (db st)) = true ->
  register st sid name email pw (Some img) salt now =
  (mkstore (db st)
           (<[realpath (os_path_join DATA_DIR (sid ++ ".jpg")) := PIL_rgb_jpeg img]>
              (files st)),
   DuplicateError).
Proof.
  intros Hsid Hem Hpw Hsave Hdup. unfold register_button, save_face, insert_student.
  rewrite Hsid, Hem, Hpw, Hsave, Hdup. reflexivity.
Qed.

(** C10 (as the code has it).  The guard of Register looks at the student
    id, the email, the password and the capture only: a request with those
    four present, an id and an email no student has, a capture that
    [save_face] saves without raising, and an empty name is answered
    [Registered], and [students] gains exactly one row, for that id and
    email, whose name is the empty string. *)
Theorem register_accepts_empty_name st sid email pw img salt now :
  truthy sid = true -> truthy email = true -> truthy pw = true ->
  (forall s, In s (students (db st)) ->
             Student.student_id s <> sid /\ Student.email s <> email) ->
  save_error (os_path_join DATA_DIR (sid ++ ".jpg")) = None ->
  let r := register st sid EmptyString email pw (Some img) salt now in
  snd r = Registered /\
  exists row,
    students (db (fst r)) = (students (db st) ++ [row])%list /\
    Student.student_id row = sid /\
    Student.email row = email /\
    Student.name row = EmptyString.
Proof.
  intros Hsid Hem Hpw Hfree Hsave. apply students_conflict_free in Hfree.
  unfold register_button, save_face, insert_student.
  rewrite Hsid, Hem, Hpw, Hsave, Hfree. simpl. split; [reflexivity|].
  eexists. split; [reflexivity|]. now simpl.
Qed.

End Registration.

(** Dave registers without a name next to Alice. *)
Lemma register_accepts_empty_name_witness :
  let r := register_button Sample.rgb Sample.realpath Sample.save_error
      Sample.hash Sample.registered
      "S400" EmptyString "dave@x.com" "pw000" (Some Sample.faceB)
      "salt" "2025-09-02T08:00:00" in
  snd r = Registered /\
  exists row,
    students (db (fst r)) = (students (db Sample.registered) ++ [row])%list /\
    Student.student_id row = "S400" /\
    Student.email row = "dave@x.com" /\
    Student.name row = EmptyString.
Proof.
  apply (register_accepts_empty_name Sample.rgb Sample.realpath Sample.save_error
           Sample.hash Sample.registered
           "S400" "dave@x.com" "pw000" Sample.faceB "salt" "2025-09-02T08:00:00");
    try reflexivity.
  intros s [<-|[]]. split; discriminate.
Defined.

(** C10 (as stated) fails.  A request with student id, email, password
    and capture present, an id and an email no student has, and no name:
    the id is CSC/22D/4441, the directory [data/CSC/22D] does not exist,
    [img.save] raises [FileNotFoundError] outside any [try], and no row
    is created. *)
Lemma register_unsaved_capture_no_row :
  let r := register_button Sample.rgb Sample.realpath Sample.save_error Sample.hash
             Sample.registered
             "CSC/22D/4441" EmptyString "dave@x.com" "pw000" (Some Sample.faceB)
             "salt" "2025-09-02T08:00:00" in
  truthy "CSC/22D/4441" = true /\ truthy "dave@x.com" = true /\
  truthy "pw000" = true /\
  existsb (students_conflict "CSC/22D/4441" "dave@x.com")
          (students (db Sample.registered)) = false /\
  snd r = Uncaught "FileNotFoundError" /\
  fst r = Sample.registered.
Proof. repeat split. Qed.

(** C5 at a failing input.  Alice is registered with face A under
    [data/S100.jpg].  A second registration with her student id, another
    email and face B is refused as a duplicate and [students] is as
    before, but her image file now holds face B.  A registration with her
    email and the new id S999 is refused as well, and leaves
    [data/S999.jpg] behind although no student has that id. *)
Lemma register_duplicate_writes_image :
  let same_id := register_button Sample.rgb Sample.realpath Sample.save_error
      Sample.hash Sample.registered
      "S100" "Mallory" "mallory@x.com" "pw" (Some Sample.faceB)
      "salt" "2025-09-02T08:00:00" in
  let same_email := register_button Sample.rgb Sample.realpath Sample.save_error
      Sample.hash Sample.registered
      "S999" "Mallory" "alice@x.com" "pw" (Some Sample.faceB)
      "salt" "2025-09-02T08:00:00" in
  snd same_id = DuplicateError /\
  db (fst same_id) = db Sample.registered /\
  files Sample.registered !! "data/S100.jpg" = Some Sample.faceA /\
  files (fst same_id) !! "data/S100.jpg" = Some Sample.faceB /\
  snd same_email = DuplicateError /\
  db (fst same_email) = db Sample.registered /\
  files Sample.registered !! "data/S999.jpg" = None /\
  files (fst same_email) !! "data/S999.jpg" = Some Sample.faceB /\
  existsb (fun s => String.eqb (Student.student_id s) "S999")
          (students (db (fst same_email))) = false.
Proof. repeat split; vm_compute; reflexivity. Qed.

(** ** The dashboard's listings *)

Lemma timestamp_asc_total a b : timestamp_asc a b = false -> timestamp_asc b a = true.
Proof.
  unfold timestamp_asc. intros H.
  destruct (String.leb_total (row_timestamp a) (row_timestamp b)); congruence.
Qed.

Lemma timestamp_asc_trans a b c :
  timestamp_asc a b = true -> timestamp_asc b c = true -> timestamp_asc a c = true.
Proof. unfold timestamp_asc. apply string_leb_trans. Qed.

Lemma date_desc_total a b : date_desc a b = false -> date_desc b a = true.
Proof.
  unfold date_desc. intros H.
  destruct (String.leb_total (Lecture.date a) (Lecture.date b)); congruence.
Qed.

Lemma date_desc_trans a b c :
  date_desc a b = true -> date_desc b c = true -> date_desc a c = true.
Proof. unfold date_desc. intros H1 H2. exact (string_leb_trans _ _ _ H2 H1). Qed.

Lemma StronglySorted_app_all {A : Type} (R : A -> A -> Prop) (l1 l2 : list A) :
  StronglySorted R l1 -> StronglySorted R l2 ->
  (forall x y, In x l1 -> In y l2 -> R x y) ->
  StronglySorted R (l1 ++ l2).
Proof.
  induction 1 as [|x l1 Hs IH Hx]; intros H2 Hcross; simpl; [exact H2|].
  constructor.
  - apply IH; [exact H2|]. intros a b Ha Hb. apply Hcross; [now right|exact Hb].
  - apply Forall_app. split; [exact Hx|].
    apply List.Forall_forall. intros y Hy. apply Hcross; [now left|exact Hy].
Qed.

Lemma attendance_rows_timestamp a d r :
  In r (attendance_rows a d) -> row_timestamp r = Attendance.timestamp a.
Proof.
  unfold attendance_rows. rewrite in_map_iff. intros (s & <- & _). reflexivity.
Qed.

Lemma attendance_rows_sorted a d : StronglySorted ascending (attendance_rows a d).
Proof.
  assert (H : forall l, (forall r, In r l -> row_timestamp r = Attendance.timestamp a) ->
                        StronglySorted ascending l).
  { induction l as [|r l IH]; intros Hl; constructor.
    - apply IH. intros r' Hr'. apply Hl. now right.
    - apply List.Forall_forall. intros r' Hr'. unfold ascending.
      rewrite (Hl r), (Hl r') by (simpl; auto).
      apply string_leb_cases. now right. }
  apply H. intros r. apply attendance_rows_timestamp.
Qed.

(** Check-ins stored in timestamp order join into rows in timestamp order. *)
Lemma join_rows_sorted d (l : list Attendance.row) :
  StronglySorted
    (fun a a' => String.leb (Attendance.timestamp a) (Attendance.timestamp a') = true) l ->
  StronglySorted ascending (flat_map (fun a => attendance_rows a d) l).
Proof.
  induction 1 as [|a l Hs IH Ha]; simpl; [constructor|].
  apply StronglySorted_app_all; [apply attendance_rows_sorted|exact IH|].
  intros r r' Hr Hr'. apply in_flat_map in Hr'. destruct Hr' as (a' & Ha' & Hr').
  unfold ascending.
  rewrite (attendance_rows_timestamp _ _ _ Hr), (attendance_rows_timestamp _ _ _ Hr').
  rewrite List.Forall_forall in Ha. now apply Ha.
Qed.

Lemma join_attendance_in lec_id d ts sid nm :
  In (ts, sid, nm) (join_attendance lec_id d) <->
  exists a s,
    In a (attendances d) /\ Attendance.lecture_id a = lec_id /\
    In s (students d) /\ Student.student_id s = Attendance.student_id a /\
    ts = Attendance.timestamp a /\ sid = Student.student_id s /\ nm = Student.name s.
Proof.
  unfold join_attendance, lecture_attendances, attendance_rows.
  rewrite in_flat_map. split.
  - intros (a & Ha & Hr). apply filter_In in Ha. destruct Ha as [Ha Hl].
    apply Z.eqb_eq in Hl. apply in_map_iff in Hr. destruct Hr as (s & Hs & Hin).
    apply filter_In in Hin. destruct Hin as [Hin He]. apply String.eqb_eq in He.
    injection Hs as <- <- <-. exists a, s. auto 10.
  - intros (a & s & Ha & Hl & Hs & He & -> & -> & ->).
    exists a. split.
    + apply filter_In. split; [exact Ha|now apply Z.eqb_eq].
    + apply in_map_iff. exists s. split; [reflexivity|].
      apply filter_In. split; [exact Hs|now apply String.eqb_eq].
Qed.

(** C8.  For every lecture id the attendance listing is ascending by
    timestamp, and it holds exactly the rows [(timestamp, student_id,
    name)] of the check-ins of that lecture joined to their students.  In
    particular, when the lecture has three check-ins, stored in the order
    of their timestamps [t1 < t2 < t3], their rows come back in that
    order. *)
Theorem select_attendance_ascending (lec_id : Z) (d : database) :
  StronglySorted ascending (select_attendance lec_id d) /\
  Permutation (select_attendance lec_id d) (join_attendance lec_id d) /\
  (forall ts sid nm,
     In (ts, sid, nm) (select_attendance lec_id d) <->
     exists a s,
       In a (attendances d) /\ Attendance.lecture_id a = lec_id /\
       In s (students d) /\ Student.student_id s = Attendance.student_id a /\
       ts = Attendance.timestamp a /\ sid = Student.student_id s /\
       nm = Student.name s) /\
  (forall a1 a2 a3,
     lecture_attendances lec_id d = [a1; a2; a3] ->
     String.ltb (Attendance.timestamp a1) (Attendance.timestamp a2) = true ->
     String.ltb (Attendance.timestamp a2) (Attendance.timestamp a3) = true ->
     select_attendance lec_id d =
     (attendance_rows a1 d ++ attendance_rows a2 d ++ attendance_rows a3 d)%list).
Proof.
  unfold select_attendance. repeat split.
  - apply order_by_sorted; [apply timestamp_asc_total|apply timestamp_asc_trans].
  - apply order_by_perm.
  - intros H. apply join_attendance_in.
    eapply Permutation_in; [apply order_by_perm|exact H].
  - intros H. apply join_attendance_in in H.
    eapply Permutation_in; [symmetry; apply order_by_perm|exact H].
  - intros a1 a2 a3 Hrows H12 H23.
    apply string_ltb_leb in H12, H23.
    assert (Hj : join_attendance lec_id d =
                 (attendance_rows a1 d ++ attendance_rows a2 d ++ attendance_rows a3 d)%list).
    { unfold join_attendance. rewrite Hrows. simpl. now rewrite app_nil_r. }
    rewrite <- Hj. apply order_by_already.
    apply StronglySorted_Sorted. unfold join_attendance. rewrite Hrows.
    apply join_rows_sorted.
    repeat constructor; eauto using string_leb_trans.
Qed.

(** Bob, Alice and Carol checked in to CS101 in that order. *)
Lemma select_attendance_ascending_witness :
  lecture_attendances 1 Sample.three_checkins =
    [Attendance.mk 1 "S200" 1 "2025-09-05T09:00:01";
     Attendance.mk 2 "S100" 1 "2025-09-05T09:00:02.500000";
     Attendance.mk 3 "S300" 1 "2025-09-05T09:01:00"] /\
  select_attendance 1 Sample.three_checkins =
    [("2025-09-05T09:00:01", "S200", "Bob");
     ("2025-09-05T09:00:02.500000", "S100", "Alice");
     ("2025-09-05T09:01:00", "S300", EmptyString)].
Proof.
  split; [reflexivity|].
  apply (proj2 (proj2 (proj2 (select_attendance_ascending 1 Sample.three_checkins)))
           (Attendance.mk 1 "S200" 1 "2025-09-05T09:00:01")
           (Attendance.mk 2 "S100" 1 "2025-09-05T09:00:02.500000")
           (Attendance.mk 3 "S300" 1 "2025-09-05T09:01:00"));
    reflexivity.
Defined.

(** C9.  The lecture listing holds every row of [lectures], the most
    recent date first, and the Dashboard page that runs it returns the
    store as it found it. *)
Theorem select_lectures_recent_first (st : store) (lec_choice : string) :
  Permutation (select_lectures (db st)) (lectures (db st)) /\
  StronglySorted recent_first (select_lectures (db st)) /\
  fst (dashboard_page st lec_choice) = st.
Proof.
  repeat split.
  - apply order_by_perm.
  - apply (order_by_sorted date_desc); [apply date_desc_total|apply date_desc_trans].
  - apply dashboard_page_store.
Qed.

(** ** Rows and files are only ever added *)

Lemma ListNoDup_snoc {A : Type} (l : list A) (x : A) :
  List.NoDup l -> ~ In x l -> List.NoDup (l ++ [x]).
Proof.
  induction 1 as [|y l Hy Hl IH]; simpl; intros Hx.
  - constructor; [intros []|constructor].
  - constructor.
    + rewrite in_app_iff. simpl. intros [H|[->|[]]]; tauto.
    + apply IH. tauto.
Qed.

Lemma next_rowid_fresh (ids : list Z) : ~ In (next_rowid ids) ids.
Proof.
  intros H. apply last_rowid_ge in H. unfold next_rowid in H. lia.
Qed.

Lemma same_prefix {A : Type} (l : list A) : exists k, l = (l ++ k)%list.
Proof. exists []. now rewrite app_nil_r. Qed.

Lemma grows_refl st : grows st st.
Proof.
  split; [|split; [|split]]; try apply same_prefix. reflexivity.
Qed.

Lemma grows_trans st1 st2 st3 : grows st1 st2 -> grows st2 st3 -> grows st1 st3.
Proof.
  intros ([k1 H1] & [k2 H2] & [k3 H3] & Hf) ([k1' H1'] & [k2' H2'] & [k3' H3'] & Hf').
  split; [|split; [|split]].
  - exists (k1 ++ k1')%list. now rewrite H1', H1, <- app_assoc.
  - exists (k2 ++ k2')%list. now rewrite H2', H2, <- app_assoc.
  - exists (k3 ++ k3')%list. now rewrite H3', H3, <- app_assoc.
  - etransitivity; eassumption.
Qed.

Lemma grows_files d d' (fs : gmap string image) p img :
  (exists k, students d' = (students d ++ k)%list) ->
  (exists k, lectures d' = (lectures d ++ k)%list) ->
  (exists k, attendances d' = (attendances d ++ k)%list) ->
  grows (mkstore d fs) (mkstore d' (<[p := img]> fs)).
Proof.
  intros H1 H2 H3. split; [|split; [|split]]; simpl; try assumption.
  rewrite dom_insert. apply union_subseteq_r.
Qed.

Lemma resolve_lecture_lectures code title today d :
  exists k, lectures (fst (resolve_lecture code title today d)) = (lectures d ++ k)%list.
Proof.
  unfold resolve_lecture. destruct (select_lecture_id code d); simpl.
  - apply same_prefix.
  - eexists. reflexivity.
Qed.

Lemma ledger_check_in_grows sid code title today now d :
  let d' := fst (ledger_check_in sid code title today now d) in
  students d' = students d /\
  (exists k, lectures d' = (lectures d ++ k)%list) /\
  (exists k, attendances d' = (attendances d ++ k)%list).
Proof.
  unfold ledger_check_in.
  pose proof (resolve_lecture_lectures code title today d) as Hl.
  pose proof (resolve_lecture_attendances code title today d) as Ha.
  pose proof (resolve_lecture_students code title today d) as Hs.
  destruct (resolve_lecture code title today d) as [d1 lec_id]. simpl in *.
  destruct (select_attendance_id sid lec_id d1); simpl.
  - rewrite Ha. auto using same_prefix.
  - rewrite Ha. split; [exact Hs|]. split; [exact Hl|]. eexists; reflexivity.
Qed.

(** ** Consistency of the database *)

Lemma select_lecture_none code d :
  select_lecture_id code d = None ->
  ~ In code (map Lecture.lecture_code (lectures d)).
Proof.
  unfold select_lecture_id. induction (lectures d) as [|l ls IH]; simpl; [tauto|].
  destruct (String.eqb (Lecture.lecture_code l) code) eqn:E; simpl; [discriminate|].
  apply String.eqb_neq in E. intros H [He|Hin]; [congruence|]. now apply IH.
Qed.

Lemma select_lecture_some code d lec_id :
  select_lecture_id code d = Some lec_id ->
  exists l, In l (lectures d) /\ Lecture.lecture_code l = code /\ Lecture.id l = lec_id.
Proof.
  unfold select_lecture_id.
  destruct (find _ (lectures d)) as [l|] eqn:F; simpl; [|discriminate].
  intros [= <-]. apply find_some in F. destruct F as [Hin He].
  apply String.eqb_eq in He. eauto.
Qed.

Lemma In_map_app_l {A B : Type} (f : A -> B) (l k : list A) (y : B) :
  In y (map f l) -> In y (map f (l ++ k)).
Proof. rewrite map_app, in_app_iff. tauto. Qed.

Lemma insert_student_consistent sid nm em pwh fp ts d d' :
  insert_student sid nm em pwh fp ts d = Return d' ->
  consistent d -> consistent d'.
Proof.
  unfold insert_student.
  destruct (existsb _ _) eqn:E; [discriminate|]. intros [= <-].
  pose proof (proj1 (students_conflict_free _ _ _) E) as Hfree. clear E.
  rename Hfree into E.
  intros ((Hs & Hl & Ha) & (Hsid & Hem) & Hc & Hr & Hat).
  split; [|split; [|split; [|split]]]; try assumption.
  - split; [|split]; simpl; try assumption.
    rewrite map_app. apply ListNoDup_snoc; [exact Hs|]. apply next_rowid_fresh.
  - split; simpl; rewrite map_app; apply ListNoDup_snoc; try assumption.
    + intros H. apply in_map_iff in H. destruct H as (s & Hs1 & Hs2).
      simpl in Hs1. destruct (E s Hs2) as [H1 H2]. congruence.
    + intros H. apply in_map_iff in H. destruct H as (s & Hs1 & Hs2).
      simpl in Hs1. destruct (E s Hs2) as [H1 H2]. congruence.
  - unfold attendees_registered in *. simpl.
    eapply Forall_impl; [exact Hat|]. intros a. apply In_map_app_l.
Qed.

Lemma resolve_lecture_consistent code title today d :
  consistent d ->
  consistent (fst (resolve_lecture code title today d)) /\
  In (snd (resolve_lecture code title today d))
     (map Lecture.id (lectures (fst (resolve_lecture code title today d)))).
Proof.
  intros Hd. unfold resolve_lecture.
  destruct (select_lecture_id code d) as [lec_id|] eqn:E; simpl.
  - split; [exact Hd|]. apply select_lecture_some in E.
    destruct E as (l & Hin & _ & <-). now apply in_map.
  - destruct Hd as ((Hs & Hl & Ha) & Hst & Hc & Hr & Hat).
    split.
    + split; [|split; [|split; [|split]]]; try assumption.
      * split; [|split]; simpl; try assumption.
        rewrite map_app. apply ListNoDup_snoc; [exact Hl|]. apply next_rowid_fresh.
      * unfold lecture_codes_distinct. simpl. rewrite map_app.
        apply ListNoDup_snoc; [exact Hc|]. now apply select_lecture_none.
      * unfold lectures_referenced in *. simpl.
        eapply Forall_impl; [exact Hr|]. intros a. apply In_map_app_l.
    + rewrite map_app, in_app_iff. right. now left.
Qed.

Lemma insert_attendance_consistent sid lec_id ts d :
  consistent d ->
  In lec_id (map Lecture.id (lectures d)) ->
  In sid (map Student.student_id (students d)) ->
  consistent (insert_attendance sid lec_id ts d).
Proof.
  intros ((Hs & Hl & Ha) & Hst & Hc & Hr & Hat) Hlec Hsid.
  split; [|split; [|split; [|split]]]; try assumption.
  - split; [|split]; simpl; try assumption.
    rewrite map_app. apply ListNoDup_snoc; [exact Ha|]. apply next_rowid_fresh.
  - unfold lectures_referenced in *. simpl. apply Forall_app. split; [exact Hr|].
    constructor; [exact Hlec|constructor].
  - unfold attendees_registered in *. simpl. apply Forall_app. split; [exact Hat|].
    constructor; [exact Hsid|constructor].
Qed.

Lemma ledger_check_in_consistent sid code title today now d :
  consistent d ->
  In sid (map Student.student_id (students d)) ->
  consistent (fst (ledger_check_in sid code title today now d)).
Proof.
  intros Hd Hsid. unfold ledger_check_in.
  pose proof (resolve_lecture_consistent code title today d Hd) as [Hd1 Hlec].
  pose proof (resolve_lecture_students code title today d) as Hs.
  destruct (resolve_lecture code title today d) as [d1 lec_id]. simpl in *.
  destruct (select_attendance_id sid lec_id d1); simpl; [exact Hd1|].
  apply insert_attendance_consistent; [exact Hd1|exact Hlec|]. now rewrite Hs.
Qed.

Lemma insert_student_students sid nm em pwh fp ts d d' :
  insert_student sid nm em pwh fp ts d = Return d' ->
  students d' =
    (students d ++
     [Student.mk (next_rowid (map Student.id (students d))) sid nm em pwh fp ts])%list /\
  lectures d' = lectures d /\ attendances d' = attendances d.
Proof.
  unfold insert_student. destruct (existsb _ _); [discriminate|].
  intros [= <-]. now simpl.
Qed.

Lemma insert_student_raises sid nm em pwh fp ts d cls :
  insert_student sid nm em pwh fp ts d = Raise cls ->
  cls = "IntegrityError" /\ existsb (students_conflict sid em) (students d) = true.
Proof.
  unfold insert_student. destruct (existsb _ _); [|discriminate].
  intros [= <-]. now split.
Qed.

Lemma faces_stored_insert realpath d (fs : gmap string image) p img :
  faces_stored realpath (mkstore d fs) ->
  faces_stored realpath (mkstore d (<[p := img]> fs)).
Proof.
  unfold faces_stored, read_file. simpl. intros H. eapply Forall_impl; [exact H|].
  intros s [Hp Hf]. split; [exact Hp|].
  destruct (decide (p = realpath (Student.face_path s))) as [->|Hne].
  - rewrite lookup_insert_eq. eauto.
  - now rewrite lookup_insert_ne.
Qed.

Section Reachable.

Variable PIL_rgb_jpeg : image -> image.
Variable realpath : string -> string.
Variable save_error : string -> option string.
Variable Facenet : image -> image -> py_result (bool * float).
Variable generate_password_hash : string -> string -> string.
Variable check_password_hash : string -> string -> bool.

Lemma register_button_store st sid name email pw photo salt now :
  consistent (db st) -> faces_stored realpath st ->
  let st' := fst (register_button PIL_rgb_jpeg realpath save_error
                    generate_password_hash st sid name email pw photo salt now) in
  consistent (db st') /\ faces_stored realpath st' /\ grows st st'.
Proof.
  intros Hd Hf. unfold register_button.
  destruct (negb _); [simpl; auto using grows_refl|].
  destruct photo as [img|]; [|simpl; auto using grows_refl].
  unfold save_face.
  destruct (save_error _); [simpl; auto using grows_refl|].
  destruct st as [d fs]. simpl in *.
  destruct (insert_student _ _ _ _ _ _ _) as [d'|cls] eqn:E.
  - simpl. pose proof (insert_student_students _ _ _ _ _ _ _ _ E) as (Hs & Hl & Ha).
    split; [eapply insert_student_consistent; eauto|]. split.
    + unfold faces_stored. simpl. rewrite Hs. apply Forall_app. split.
      * apply (faces_stored_insert realpath d fs _ _ Hf).
      * constructor; [|constructor]. simpl. split; [reflexivity|].
        unfold read_file. rewrite lookup_insert_eq. eauto.
    + apply grows_files; [eexists; exact Hs| |].
      * rewrite Hl. apply same_prefix.
      * rewrite Ha. apply same_prefix.
  - assert (Hsame : grows (mkstore d fs)
                      (mkstore d (<[realpath (os_path_join DATA_DIR (sid ++ ".jpg"))
                                    := PIL_rgb_jpeg img]> fs)))
      by (apply grows_files; apply same_prefix).
    destruct (String.eqb cls _); simpl; auto using faces_stored_insert.
Qed.

Lemma checkin_button_store st user lec_code lec_title photo today now :
  consistent (db st) -> faces_stored realpath st ->
  In (Student.student_id user) (map Student.student_id (students (db st))) ->
  let st' := fst (checkin_button PIL_rgb_jpeg realpath save_error Facenet
                    st user lec_code lec_title photo today now) in
  consistent (db st') /\ faces_stored realpath st' /\ grows st st' /\
  students (db st') = students (db st).
Proof.
  intros Hd Hf Hu. unfold checkin_button.
  destruct (negb (truthy lec_code) || negb (captured photo));
    [simpl; auto using grows_refl|].
  destruct photo as [img|]; [|simpl; auto using grows_refl].
  unfold save_face.
  destruct (save_error _); [simpl; auto using grows_refl|].
  destruct st as [d fs]. simpl in *.
  assert (Hsame : grows (mkstore d fs)
                    (mkstore d (<[realpath
                                    (os_path_join DATA_DIR
                                       ((Student.student_id user ++ "_probe") ++ ".jpg"))
                                  := PIL_rgb_jpeg img]> fs)))
    by (apply grows_files; apply same_prefix).
  destruct (verify_faces _ _ _ _ _) as [[ok dist]|cls];
    [|simpl; auto using faces_stored_insert].
  destruct ok; simpl; [|auto using faces_stored_insert].
  pose proof (ledger_check_in_consistent (Student.student_id user) lec_code lec_title
                today now d Hd Hu) as Hd'.
  pose proof (ledger_check_in_grows (Student.student_id user) lec_code lec_title
                today now d) as (Hs & Hl & Ha).
  destruct (ledger_check_in _ _ _ _ _ _) as [d' msg]. simpl in *.
  split; [exact Hd'|]. split; [|split; [|exact Hs]].
  - apply faces_stored_insert. unfold faces_stored in *. simpl in *. now rewrite Hs.
  - apply grows_files; [rewrite Hs; apply same_prefix|exact Hl|exact Ha].
Qed.

Lemma login_button_user st user email pw u :
  fst (login_button check_password_hash st user email pw) = Some u ->
  user = Some u \/
  (In u (students (db st)) /\ Student.email u = email /\
   check_password_hash (Student.password_hash u) pw = true).
Proof.
  unfold login_button, select_student_by_email.
  destruct (find _ (students (db st))) as [row|] eqn:F; simpl; [|auto].
  destruct (check_password_hash (Student.password_hash row) pw) eqn:C; simpl; [|auto].
  intros [= <-]. apply find_some in F. destruct F as [Hin He].
  apply String.eqb_eq in He. auto.
Qed.

Local Abbreviation step' :=
  (step PIL_rgb_jpeg realpath save_error Facenet generate_password_hash
        check_password_hash).
Local Abbreviation run' :=
  (run PIL_rgb_jpeg realpath save_error Facenet
       generate_password_hash check_password_hash).

Lemma sessions_registered_grows st st' (m : gmap nat Student.row) :
  grows st st' ->
  sessions_registered (mkworld st m) -> sessions_registered (mkworld st' m).
Proof.
  intros ([k Hk] & _) H. unfold sessions_registered in *. simpl in *.
  eapply map_Forall_impl; [exact H|]. intros i u Hin. simpl in *.
  rewrite Hk, in_app_iff. now left.
Qed.

Lemma step_well_formed w r :
  well_formed realpath w ->
  well_formed realpath (fst (step' w r)) /\
  grows (persistent w) (persistent (fst (step' w r))).
Proof.
  intros [Hd Hf Hs]. destruct w as [st m]. simpl in *.
  destruct r as [sid name email pw photo salt now | k email pw
                | k lec_code lec_title photo today now | lec_choice | k]; simpl.
  - pose proof (register_button_store st sid name email pw photo salt now Hd Hf)
      as (Hd' & Hf' & Hg).
    destruct (register_button _ _ _ _ _ _ _ _ _ _ _ _) as [st' msg]. simpl in *.
    split; [|exact Hg]. split; simpl; auto. eapply sessions_registered_grows; eauto.
  - pose proof (login_button_user st (m !! k) email pw) as Hu.
    destruct (login_button _ _ _ _ _) as [user msg]. simpl in *.
    split; [|apply grows_refl]. split; simpl; auto.
    unfold sessions_registered in *. simpl in *. destruct user as [u|].
    + apply map_Forall_insert_2; [|exact Hs].
      destruct (Hu u eq_refl) as [Hold|[Hin _]]; [|exact Hin].
      exact (Hs k u Hold).
    + intros i u Hi. apply lookup_delete_Some in Hi. destruct Hi as [_ Hi].
      exact (Hs i u Hi).
  - unfold checkin_page. destruct (m !! k) as [u|] eqn:Hk; simpl.
    + assert (Hin : In (Student.student_id u)
                       (map Student.student_id (students (db st))))
        by (apply in_map; exact (Hs k u Hk)).
      pose proof (checkin_button_store st u lec_code lec_title photo today now
                    Hd Hf Hin) as (Hd' & Hf' & Hg & _).
      destruct (checkin_button _ _ _ _ _ _ _ _ _ _ _) as [st' msg]. simpl in *.
      split; [|exact Hg]. split; simpl; auto. eapply sessions_registered_grows; eauto.
    + split; [|apply grows_refl]. split; simpl; auto.
  - pose proof (dashboard_page_store st lec_choice) as Hsame.
    destruct (dashboard_page st lec_choice) as [st' msg]. simpl in *. subst st'.
    split; [|apply grows_refl]. split; simpl; auto.
  - unfold home_page. destruct (m !! k); simpl;
      (split; [|apply grows_refl]); split; simpl; auto.
Qed.

Lemma run_well_formed rs : forall w,
  well_formed realpath w ->
  well_formed realpath (run' w rs) /\
  grows (persistent w) (persistent (run' w rs)).
Proof.
  induction rs as [|r rs IH]; intros w Hw; simpl.
  - split; [exact Hw|apply grows_refl].
  - destruct (step_well_formed w r Hw) as [Hw' Hg].
    destruct (IH _ Hw') as [Hw'' Hg']. split; [exact Hw''|].
    eapply grows_trans; eauto.
Qed.

Lemma init_world_well_formed : well_formed realpath init_world.
Proof.
  split.
  - repeat split; simpl; constructor.
  - constructor.
  - intros i u Hi. simpl in Hi. now rewrite lookup_empty in Hi.
Qed.

End Reachable.

(** ** What holds in every state the application reaches

    The states below are those reached from the empty database by serving
    requests one at a time, for any converter, comparison and hashing. *)

Section ReachableStates.

Variable PIL_rgb_jpeg : image -> image.
Variable realpath : string -> string.
Variable save_error : string -> option string.
Variable Facenet : image -> image -> py_result (bool * float).
Variable generate_password_hash : string -> string -> string.
Variable check_password_hash : string -> string -> bool.

Local Abbreviation reached :=
  (run PIL_rgb_jpeg realpath save_error Facenet
       generate_password_hash check_password_hash init_world).

Lemma reached_well_formed rs : well_formed realpath (reached rs).
Proof. apply run_well_formed, init_world_well_formed. Qed.

(** X1.  No two students share a student id, and no two share an email:
    the [UNIQUE] columns of [students] together with the handler's
    [except sqlite3.IntegrityError]. *)
Theorem reached_students_distinct (rs : list request) :
  students_distinct
    (db (persistent (run PIL_rgb_jpeg realpath save_error Facenet
                         generate_password_hash check_password_hash init_world rs))).
Proof. apply (wf_db _ _ (reached_well_formed rs)). Qed.

(** X2.  No two lectures share a lecture code, although the table has no
    constraint: the check-in handler only inserts a lecture after looking
    the code up and finding none. *)
Theorem reached_lecture_codes_distinct (rs : list request) :
  lecture_codes_distinct
    (db (persistent (run PIL_rgb_jpeg realpath save_error Facenet
                         generate_password_hash check_password_hash init_world rs))).
Proof. apply (wf_db _ _ (reached_well_formed rs)). Qed.

(** X3.  Every attendance row is for a lecture that is in [lectures] and
    by a student that is in [students], although foreign keys are not
    enforced and [attendances.student_id] is not declared as one. *)
Theorem reached_attendance_references (rs : list request) :
  lectures_referenced
    (db (persistent (run PIL_rgb_jpeg realpath save_error Facenet
                         generate_password_hash check_password_hash init_world rs))) /\
  attendees_registered
    (db (persistent (run PIL_rgb_jpeg realpath save_error Facenet
                         generate_password_hash check_password_hash init_world rs))).
Proof.
  destruct (wf_db _ _ (reached_well_formed rs)) as (_ & _ & _ & Hl & Ha). now split.
Qed.

(** X4.  The face path of every student is the path [save_face] computes
    from the student id, and it names a stored file. *)
Theorem reached_faces_stored (rs : list request) :
  faces_stored realpath
    (persistent (run PIL_rgb_jpeg realpath save_error Facenet
                     generate_password_hash check_password_hash init_world rs)).
Proof. apply (wf_faces _ _ (reached_well_formed rs)). Qed.

(** In each of the three tables the rowids are pairwise distinct. *)
Theorem reached_rowids_distinct (rs : list request) :
  rowids_distinct
    (db (persistent (run PIL_rgb_jpeg realpath save_error Facenet
                         generate_password_hash check_password_hash init_world rs))).
Proof. apply (wf_db _ _ (reached_well_formed rs)). Qed.

Lemma run_app w rs rs' :
  run PIL_rgb_jpeg realpath save_error
      Facenet generate_password_hash check_password_hash w (rs ++ rs') =
  run PIL_rgb_jpeg realpath save_error
      Facenet generate_password_hash check_password_hash
      (run PIL_rgb_jpeg realpath save_error
          Facenet generate_password_hash check_password_hash w rs) rs'.
Proof. unfold run. apply foldl_app. Qed.

(** X6.  No row is ever deleted or changed and no file is ever deleted:
    after any further requests each table still starts with the rows it
    had, in the same order, and every file that existed still exists (its
    contents may have been replaced). *)
Theorem reached_grows (rs rs' : list request) :
  grows
    (persistent (run PIL_rgb_jpeg realpath save_error Facenet
                     generate_password_hash check_password_hash init_world rs))
    (persistent (run PIL_rgb_jpeg realpath save_error Facenet
                     generate_password_hash check_password_hash init_world (rs ++ rs'))).
Proof.
  rewrite run_app. apply run_well_formed, reached_well_formed.
Qed.

(** X5.  The user of every session is a row of [students]: a session is
    only ever bound by a login that found the row. *)
Theorem reached_sessions_registered (rs : list request) (k : nat) :
  match session_user (run PIL_rgb_jpeg realpath save_error Facenet
                          generate_password_hash check_password_hash init_world rs) !! k with
  | Some u =>
      In u (students (db (persistent
              (run PIL_rgb_jpeg realpath save_error Facenet
                   generate_password_hash check_password_hash init_world rs))))
  | None => True
  end.
Proof.
  pose proof (wf_sessions _ _ (reached_well_formed rs)) as H.
  destruct (session_user _ !! k) as [u|] eqn:E; [|exact I].
  exact (H k u E).
Qed.

End ReachableStates.

(** ** Register and Login *)

Lemma find_email_none em (l : list Student.row) :
  (forall s, In s l -> Student.email s <> em) ->
  find (fun s => String.eqb (Student.email s) em) l = None.
Proof.
  intros H. destruct (find _ l) as [s|] eqn:F; [|reflexivity].
  apply find_some in F. destruct F as [Hin He]. apply String.eqb_eq in He.
  now destruct (H s Hin).
Qed.

Lemma students_conflict_found sid em (l : list Student.row) :
  existsb (students_conflict sid em) l = true <->
  exists s, In s l /\ (Student.student_id s = sid \/ Student.email s = em).
Proof.
  rewrite existsb_exists. unfold students_conflict. split.
  - intros (s & Hin & H). apply orb_true_iff in H. rewrite !String.eqb_eq in H. eauto.
  - intros (s & Hin & H). exists s. split; [exact Hin|].
    apply orb_true_iff. now rewrite !String.eqb_eq.
Qed.

Section Accounts.

Variable PIL_rgb_jpeg : image -> image.
Variable realpath : string -> string.
Variable save_error : string -> option string.
Variable generate_password_hash : string -> string -> string.
Variable check_password_hash : string -> string -> bool.

Local Abbreviation register := (register_button PIL_rgb_jpeg realpath save_error
                                   generate_password_hash).
Local Abbreviation login := (login_button check_password_hash).

Lemma register_guard sid email pw (photo : option image) :
  negb (truthy sid && truthy email && truthy pw && captured photo) = true <->
  sid = EmptyString \/ email = EmptyString \/ pw = EmptyString \/ photo = None.
Proof.
  unfold truthy.
  destruct (String.eqb_spec sid EmptyString), (String.eqb_spec email EmptyString),
    (String.eqb_spec pw EmptyString), photo; simpl; split; intros H;
    try reflexivity; try discriminate; auto;
    destruct H as [H|[H|[H|H]]]; congruence.
Qed.

(** X7.  The message of Register says exactly what happened: "fields
    required" when one of the four checked inputs is missing; otherwise
    the uncaught exception of [img.save] when saving the capture under
    the id's image path raises; otherwise "already exists" when some
    student has the id or the email, and "registered" when none has.
    Nothing else is shown. *)
Theorem register_message_exact st sid name email pw photo salt now :
  let msg := snd (register_button PIL_rgb_jpeg realpath save_error
                    generate_password_hash st sid name email pw photo salt now) in
  let missing := sid = EmptyString \/ email = EmptyString \/ pw = EmptyString \/
                 photo = None in
  let unsaved := save_error (os_path_join DATA_DIR (sid ++ ".jpg")) in
  let taken := exists s, In s (students (db st)) /\
                         (Student.student_id s = sid \/ Student.email s = email) in
  (msg = FieldsRequired <-> missing) /\
  (forall cls, msg = Uncaught cls <-> ~ missing /\ unsaved = Some cls) /\
  (msg = DuplicateError <-> ~ missing /\ unsaved = None /\ taken) /\
  (msg = Registered <-> ~ missing /\ unsaved = None /\ ~ taken) /\
  (msg = FieldsRequired \/ (exists cls, msg = Uncaught cls) \/
   msg = DuplicateError \/ msg = Registered).
Proof.
  intros msg missing unsaved taken. subst msg. unfold register_button.
  pose proof (register_guard sid email pw photo) as Hg. fold missing in Hg.
  pose proof (students_conflict_found sid email (students (db st))) as Hc.
  fold taken in Hc.
  destruct (negb _) eqn:G.
  - assert (Hm : missing) by now apply Hg. simpl.
    split; [tauto|].
    split; [intros cls; split; [discriminate|tauto]|].
    split; [split; [discriminate|tauto]|].
    split; [split; [discriminate|tauto]|].
    now left.
  - assert (Hn : ~ missing) by (intros Hm; apply Hg in Hm; discriminate).
    destruct photo as [img|]; [|exfalso; apply Hn; unfold missing; auto].
    unfold save_face. fold unsaved. destruct unsaved as [cls0|]; simpl.
    + split; [split; [discriminate|tauto]|].
      split; [|split; [|split]].
      * intros cls. split; [intros [= ->]; auto|intros [_ [= ->]]; reflexivity].
      * split; [discriminate|intros (_ & H & _); discriminate].
      * split; [discriminate|intros (_ & H & _); discriminate].
      * right. left. eauto.
    + unfold insert_student. destruct (existsb _ _) eqn:E; simpl.
      * assert (Ht : taken) by now apply Hc.
        split; [split; [discriminate|tauto]|].
        split; [|split; [|split]].
        -- intros cls. split; [discriminate|intros [_ H]; discriminate].
        -- tauto.
        -- split; [discriminate|tauto].
        -- auto.
      * assert (Ht : ~ taken) by (intros Ht; apply Hc in Ht; discriminate).
        split; [split; [discriminate|tauto]|].
        split; [|split; [|split]].
        -- intros cls. split; [discriminate|intros [_ H]; discriminate].
        -- split; [discriminate|tauto].
        -- tauto.
        -- auto.
Qed.

(** X8.  A refused registration for missing fields writes nothing, not even
    the captured image. *)
Theorem register_missing_fields_writes_nothing st sid name email pw photo salt now :
  sid = EmptyString \/ email = EmptyString \/ pw = EmptyString \/ photo = None ->
  register_button PIL_rgb_jpeg realpath save_error generate_password_hash
                  st sid name email pw photo salt now = (st, FieldsRequired).
Proof.
  intros Hm. apply register_guard in Hm. unfold register_button. now rewrite Hm.
Qed.

(** X9.  What a successful registration stores: one new row at the end of
    [students], with a fresh rowid, the inputs as given, the hash of the
    password (not the password), the image path and the time; the image
    in the file that path names; and nothing in the other two tables. *)
Theorem register_success_stores st sid name email pw img salt now :
  snd (register_button PIL_rgb_jpeg realpath save_error generate_password_hash
         st sid name email pw (Some img) salt now) = Registered ->
  let st' := fst (register_button PIL_rgb_jpeg realpath save_error
                     generate_password_hash
                    st sid name email pw (Some img) salt now) in
  let path := os_path_join DATA_DIR (sid ++ ".jpg") in
  students (db st') =
    (students (db st) ++
     [Student.mk (next_rowid (map Student.id (students (db st)))) sid name email
                 (generate_password_hash salt pw) path now])%list /\
  lectures (db st') = lectures (db st) /\
  attendances (db st') = attendances (db st) /\
  files st' = <[realpath path := PIL_rgb_jpeg img]> (files st).
Proof.
  unfold register_button. destruct (negb _); [discriminate|].
  unfold save_face. destruct (save_error _); [discriminate|].
  unfold insert_student. destruct (existsb _ _); simpl; [discriminate|].
  intros _. auto.
Qed.

(** X11.  Register then Login: provided the hash of a password checks against
    that password, the student just registered logs in with the email and
    password given, is welcomed by name (by student id when the name is
    empty), and the session is bound to the new row. *)
Theorem register_then_login st sid name email pw img salt now user :
  check_password_hash (generate_password_hash salt pw) pw = true ->
  snd (register_button PIL_rgb_jpeg realpath save_error generate_password_hash
         st sid name email pw (Some img) salt now) = Registered ->
  let st' := fst (register_button PIL_rgb_jpeg realpath save_error
                     generate_password_hash
                    st sid name email pw (Some img) salt now) in
  exists row,
    login_button check_password_hash st' user email pw =
      (Some row, Welcome (if truthy name then name else sid)) /\
    In row (students (db st')) /\
    Student.student_id row = sid /\ Student.email row = email /\
    Student.name row = name.
Proof.
  intros Hhash. unfold register_button. destruct (negb _); [discriminate|].
  unfold save_face. destruct (save_error _); [discriminate|].
  unfold insert_student.
  destruct (existsb _ _) eqn:E; simpl; [discriminate|]. intros _.
  pose proof (proj1 (students_conflict_free _ _ _) E) as Hfree.
  eexists. split; [|split; [|split; [|split]]].
  - unfold login_button, select_student_by_email. simpl.
    rewrite (find_app_last _ _
               (Student.mk (next_rowid (map Student.id (students (db st)))) sid name email
                  (generate_password_hash salt pw)
                  (os_path_join DATA_DIR (sid ++ ".jpg")) now)).
    + simpl. rewrite Hhash. reflexivity.
    + apply find_email_none. intros s Hs. now destruct (Hfree s Hs).
    + simpl. apply String.eqb_refl.
  - rewrite in_app_iff. right. now left.
  - reflexivity.
  - reflexivity.
  - reflexivity.
Qed.

(** X12.  Whoever Login welcomes is a row of [students] with the email typed
    whose stored hash checks against the password typed; the session is
    bound to that row, and the greeting uses the name, or the student id
    when the name is empty. *)
Theorem login_welcome_sound st user email pw who :
  snd (login_button check_password_hash st user email pw) = Welcome who ->
  exists row,
    fst (login_button check_password_hash st user email pw) = Some row /\
    In row (students (db st)) /\
    Student.email row = email /\
    check_password_hash (Student.password_hash row) pw = true /\
    who = (if truthy (Student.name row) then Student.name row
           else Student.student_id row).
Proof.
  unfold login_button, select_student_by_email.
  destruct (find _ (students (db st))) as [row|] eqn:F; simpl; [|discriminate].
  destruct (check_password_hash (Student.password_hash row) pw) eqn:C; simpl;
    [|discriminate].
  intros [= <-]. apply find_some in F. destruct F as [Hin He].
  apply String.eqb_eq in He. exists row. auto.
Qed.

End Accounts.

(** Alice registers in the empty store and logs in. *)
Lemma register_then_login_witness :
  let reg := register_button Sample.rgb Sample.realpath Sample.save_error Sample.hash
               {| db := init_db; files := ∅ |}
               "S100" "Alice" "alice@x.com" "pw123" (Some Sample.faceA)
               "salt" "2025-09-01T08:00:00" in
  Sample.check (Sample.hash "salt" "pw123") "pw123" = true /\
  snd reg = Registered /\
  exists row,
    login_button Sample.check (fst reg) None "alice@x.com" "pw123" =
      (Some row, Welcome (if truthy "Alice" then "Alice" else "S100")) /\
    In row (students (db (fst reg))) /\
    Student.student_id row = "S100" /\ Student.email row = "alice@x.com" /\
    Student.name row = "Alice".
Proof.
  split; [reflexivity|]. split; [reflexivity|].
  apply (register_then_login Sample.rgb Sample.realpath Sample.save_error
            Sample.hash Sample.check
           {| db := init_db; files := ∅ |}
           "S100" "Alice" "alice@x.com" "pw123" Sample.faceA
           "salt" "2025-09-01T08:00:00" None); reflexivity.
Defined.

Lemma register_success_stores_witness :
  let reg := register_button Sample.rgb Sample.realpath Sample.save_error
      Sample.hash Sample.registered
      "S200" "Bob" "bob@x.com" "pw456" (Some Sample.faceB)
      "salt" "2025-09-01T08:05:00" in
  snd reg = Registered /\
  students (db (fst reg)) = [Sample.alice; Sample.bob] /\
  lectures (db (fst reg)) = [] /\
  attendances (db (fst reg)) = [] /\
  files (fst reg) = <["data/S200.jpg" := Sample.faceB]> (files Sample.registered).
Proof.
  split; [reflexivity|].
  apply (register_success_stores Sample.rgb Sample.realpath Sample.save_error
            Sample.hash Sample.registered
           "S200" "Bob" "bob@x.com" "pw456" Sample.faceB "salt" "2025-09-01T08:05:00").
  reflexivity.
Defined.

(** A registration without a password, next to Alice. *)
Lemma register_missing_fields_writes_nothing_witness :
  register_button Sample.rgb Sample.realpath Sample.save_error
      Sample.hash Sample.registered
    "S200" "Bob" "bob@x.com" EmptyString (Some Sample.faceB)
    "salt" "2025-09-01T08:05:00" = (Sample.registered, FieldsRequired).
Proof.
  apply (register_missing_fields_writes_nothing Sample.rgb Sample.realpath
           Sample.save_error Sample.hash).
  right. right. left. reflexivity.
Defined.

(** Alice logs in. *)
Lemma login_welcome_sound_witness :
  snd (login_button Sample.check Sample.registered None "alice@x.com" "pw123")
    = Welcome "Alice" /\
  exists row,
    fst (login_button Sample.check Sample.registered None "alice@x.com" "pw123")
      = Some row /\
    In row (students (db Sample.registered)) /\
    Student.email row = "alice@x.com" /\
    Sample.check (Student.password_hash row) "pw123" = true /\
    "Alice" = (if truthy (Student.name row) then Student.name row
               else Student.student_id row).
Proof.
  split; [reflexivity|].
  apply (login_welcome_sound Sample.check Sample.registered None
           "alice@x.com" "pw123" "Alice").
  reflexivity.
Defined.

(** Mallory registers with Alice's student id. *)
Lemma register_duplicate_witness :
  register_button Sample.rgb Sample.realpath Sample.save_error
      Sample.hash Sample.registered
    "S100" "Mallory" "mallory@x.com" "pw" (Some Sample.faceB)
    "salt" "2025-09-02T08:00:00" =
  (mkstore (db Sample.registered)
           (<[Sample.realpath (os_path_join DATA_DIR ("S100" ++ ".jpg")) :=
                Sample.rgb Sample.faceB]>
              (files Sample.registered)),
   DuplicateError).
Proof.
  apply (register_duplicate Sample.rgb Sample.realpath Sample.save_error
            Sample.hash); reflexivity.
Defined.

(** ** A failed login *)

Section FailedLogin.

Variable PIL_rgb_jpeg : image -> image.
Variable realpath : string -> string.
Variable save_error : string -> option string.
Variable Facenet : image -> image -> py_result (bool * float).
Variable generate_password_hash : string -> string -> string.
Variable check_password_hash : string -> string -> bool.

(** X13.  A login answered "Invalid credentials" changes nothing: the session
    stays bound to whoever it was bound to, and every other session and
    the store are as before. *)
Theorem failed_login_changes_nothing w k email pw :
  snd (step PIL_rgb_jpeg realpath save_error
          Facenet generate_password_hash check_password_hash
            w (Login k email pw)) = InvalidCredentials ->
  fst (step PIL_rgb_jpeg realpath save_error
          Facenet generate_password_hash check_password_hash
            w (Login k email pw)) = w.
Proof.
  destruct w as [st m]. simpl. unfold login_button.
  destruct (select_student_by_email email (db st)) as [row|]; simpl.
  - destruct (check_password_hash (Student.password_hash row) pw); simpl;
      [discriminate|].
    intros _. destruct (m !! k) as [u|] eqn:E; f_equal.
    + now apply insert_id.
    + now apply delete_id.
  - intros _. destruct (m !! k) as [u|] eqn:E; f_equal.
    + now apply insert_id.
    + now apply delete_id.
Qed.

(** Login is answered "Invalid credentials" exactly when no student has
    the email, or the first row with the email has a hash that does not
    check against the password. *)
Theorem login_refused_iff st user email pw :
  snd (login_button check_password_hash st user email pw) = InvalidCredentials <->
  match select_student_by_email email (db st) with
  | None => True
  | Some row => check_password_hash (Student.password_hash row) pw = false
  end.
Proof.
  unfold login_button.
  destruct (select_student_by_email email (db st)) as [row|]; simpl; [|tauto].
  destruct (check_password_hash (Student.password_hash row) pw); simpl;
    split; intros H; try discriminate; reflexivity.
Qed.

End FailedLogin.

(** Alice is logged in; somebody tries her email with a wrong password
    from the same session. *)
Lemma failed_login_changes_nothing_witness :
  snd (step Sample.rgb Sample.realpath Sample.save_error
          Sample.facenet Sample.hash Sample.check Sample.logged_in
            (Login 0 "alice@x.com" "guess")) = InvalidCredentials /\
  fst (step Sample.rgb Sample.realpath Sample.save_error
          Sample.facenet Sample.hash Sample.check Sample.logged_in
            (Login 0 "alice@x.com" "guess")) = Sample.logged_in.
Proof.
  split; [reflexivity|].
  apply (failed_login_changes_nothing Sample.rgb Sample.realpath Sample.save_error
            Sample.facenet Sample.hash
           Sample.check Sample.logged_in 0%nat "alice@x.com" "guess").
  reflexivity.
Defined.

(** ** More on the verifier and on Check-in *)

Lemma ledger_check_in_cases sid code title today now d :
  ledger_check_in sid code title today now d =
  if Nat.eqb (attendance_count sid (snd (resolve_lecture code title today d)) d) 0
  then (insert_attendance sid (snd (resolve_lecture code title today d)) now
                          (fst (resolve_lecture code title today d)), Recorded)
  else (fst (resolve_lecture code title today d), AlreadyCheckedIn).
Proof.
  destruct (Nat.eqb_spec
              (attendance_count sid (snd (resolve_lecture code title today d)) d) 0)
    as [Hz|Hnz].
  - now apply ledger_check_in_fresh.
  - unfold ledger_check_in.
    rewrite <- (attendance_count_resolve _ _ code title today) in Hnz.
    destruct (resolve_lecture code title today d) as [d1 lec_id]. simpl in *.
    destruct (select_attendance_id sid lec_id d1) eqn:E; [reflexivity|].
    apply select_attendance_none in E. contradiction.
Qed.

Lemma ledger_check_in_message sid code title today now d :
  snd (ledger_check_in sid code title today now d) =
  if Nat.eqb (attendance_count sid (snd (resolve_lecture code title today d)) d) 0
  then Recorded else AlreadyCheckedIn.
Proof. rewrite ledger_check_in_cases. now destruct (Nat.eqb _ 0). Qed.

Lemma ledger_check_in_db sid code title today now d :
  fst (ledger_check_in sid code title today now d) =
  if Nat.eqb (attendance_count sid (snd (resolve_lecture code title today d)) d) 0
  then insert_attendance sid (snd (resolve_lecture code title today d)) now
                         (fst (resolve_lecture code title today d))
  else fst (resolve_lecture code title today d).
Proof. rewrite ledger_check_in_cases. now destruct (Nat.eqb _ 0). Qed.

Section CheckinMore.

Variable PIL_rgb_jpeg : image -> image.
Variable realpath : string -> string.
Variable save_error : string -> option string.
Variable Facenet : image -> image -> py_result (bool * float).

Local Abbreviation checkin := (checkin_button PIL_rgb_jpeg realpath save_error Facenet).
Local Abbreviation verdict := (probe_verdict PIL_rgb_jpeg realpath save_error Facenet).
Local Abbreviation saved := (probe_saved PIL_rgb_jpeg realpath save_error).

(** X14.  The verifier reports a match only when both paths name files and the
    comparison of those two files returned [verified = True], with that
    distance. *)
Theorem verify_faces_match_sound
    (fs : gmap string image) (registered_img new_img : string) (dist : float) :
  verify_faces realpath Facenet fs registered_img new_img = Return (true, dist) ->
  exists img1 img2,
    read_file realpath fs registered_img = Some img1 /\
    read_file realpath fs new_img = Some img2 /\
    Facenet img1 img2 = Return (true, dist).
Proof.
  unfold verify_faces, DeepFace_verify.
  destruct (read_file realpath fs registered_img) as [img1|]; [|discriminate].
  destruct (read_file realpath fs new_img) as [img2|]; [|discriminate].
  destruct (Facenet img1 img2) as [r|cls] eqn:E; [|discriminate].
  intros [= ->]. eauto.
Qed.

(** Only saving the probe can make the verdict an exception: the
    verifier catches its own. *)
Lemma probe_verdict_raises st user img cls :
  verdict st user img = Raise cls <->
  save_error (os_path_join DATA_DIR ((Student.student_id user ++ "_probe") ++ ".jpg"))
    = Some cls.
Proof.
  unfold probe_verdict, save_face.
  destruct (save_error _) as [cls0|]; [split; intros [= ->]; reflexivity|].
  unfold verify_faces. destruct (DeepFace_verify _ _ _ _ _) as [[ok dist]|cls1];
    split; discriminate.
Qed.

Lemma checkin_guard lec_code (photo : option image) :
  negb (truthy lec_code) || negb (captured photo) = true <->
  lec_code = EmptyString \/ photo = None.
Proof.
  unfold truthy. destruct (String.eqb_spec lec_code EmptyString), photo; simpl;
    split; intros H; try reflexivity; try discriminate; auto;
    destruct H; congruence.
Qed.

(** X15.  The message of Check-in says exactly what happened.  It is the input
    error when the code or the capture is missing; otherwise the uncaught
    exception of [img.save] when saving the probe raises (and only then:
    the verifier catches its own exceptions); otherwise a mismatch with
    the verifier's distance when the verifier said no; and when the
    verifier said yes it is "successful" if the student had no row for
    the lecture the code resolves to, "already checked in" otherwise. *)
Theorem checkin_message_exact st user lec_code lec_title photo today now :
  let msg := snd (checkin_button PIL_rgb_jpeg realpath save_error Facenet
                    st user lec_code lec_title photo today now) in
  let sid := Student.student_id user in
  let earlier :=
    attendance_count sid (snd (resolve_lecture lec_code lec_title today (db st)))
                     (db st) in
  match photo with
  | None => msg = LectureCodeMissing
  | Some img =>
      if negb (truthy lec_code) then msg = LectureCodeMissing
      else
        match save_error (os_path_join DATA_DIR ((sid ++ "_probe") ++ ".jpg")) with
        | Some cls => msg = Uncaught cls
        | None =>
            exists ok dist,
              probe_verdict PIL_rgb_jpeg realpath save_error Facenet st user img
                = Return (ok, dist) /\
              msg = (if negb ok then FaceMismatch dist
                     else if Nat.eqb earlier 0 then Recorded else AlreadyCheckedIn)
        end
  end.
Proof.
  intros msg sid earlier. subst msg.
  destruct photo as [img|].
  - destruct (truthy lec_code) eqn:Hcode; simpl.
    + rewrite checkin_button_guarded by exact Hcode.
      pose proof (probe_verdict_raises st user img) as Hr. fold sid in Hr.
      destruct (verdict st user img) as [[ok dist]|cls] eqn:Hv.
      * destruct (save_error _) as [cls0|];
          [discriminate (proj2 (Hr cls0) eq_refl)|].
        exists ok, dist. split; [reflexivity|].
        destruct ok; simpl; [|reflexivity].
        pose proof (ledger_check_in_message sid lec_code lec_title today now (db st))
          as Hm.
        fold sid. destruct (ledger_check_in sid _ _ _ _ _) as [d msg]. exact Hm.
      * rewrite (proj1 (Hr cls) eq_refl). reflexivity.
    + unfold checkin_button. now rewrite Hcode.
  - unfold checkin_button. simpl. now rewrite orb_true_r.
Qed.

Lemma checkin_button_missing st user lec_code lec_title photo today now :
  lec_code = EmptyString \/ photo = None ->
  checkin_button PIL_rgb_jpeg realpath save_error
      Facenet st user lec_code lec_title photo today now
    = (st, LectureCodeMissing).
Proof.
  intros Hm. apply checkin_guard in Hm. unfold checkin_button. now rewrite Hm.
Qed.

(** X16.  A check-in refused for a missing code or capture writes nothing: no
    probe file, no row. *)
Theorem checkin_missing_input_writes_nothing
    st user lec_code lec_title photo today now :
  lec_code = EmptyString \/ photo = None ->
  checkin_button PIL_rgb_jpeg realpath save_error
      Facenet st user lec_code lec_title photo today now
    = (st, LectureCodeMissing).
Proof. apply checkin_button_missing. Qed.

(** X17.  The ledger is only written after a match: a check-in that changes
    [lectures] or [attendances] had a capture, a code, and a verifier that
    returned [matched = True]. *)
Theorem checkin_writes_only_on_match st user lec_code lec_title photo today now :
  let st' := fst (checkin_button PIL_rgb_jpeg realpath save_error
                     Facenet st user lec_code lec_title photo today now) in
  lectures (db st') <> lectures (db st) \/
  attendances (db st') <> attendances (db st) ->
  exists img dist,
    photo = Some img /\ truthy lec_code = true /\
    probe_verdict PIL_rgb_jpeg realpath save_error
        Facenet st user img = Return (true, dist).
Proof.
  intros st' Hch. subst st'.
  destruct photo as [img|];
    [|rewrite checkin_button_missing in Hch by auto; tauto].
  destruct (truthy lec_code) eqn:Hcode.
  - rewrite checkin_button_guarded in Hch by exact Hcode.
    destruct (verdict st user img) as [[ok dist]|cls] eqn:Hv;
      [|simpl in Hch; tauto].
    destruct ok; simpl in Hch; [eauto|tauto].
  - unfold checkin_button in Hch. rewrite Hcode in Hch. simpl in Hch. tauto.
Qed.

Lemma checkin_button_frame st user lec_code lec_title photo today now :
  let st' := fst (checkin_button PIL_rgb_jpeg realpath save_error Facenet
                    st user lec_code lec_title photo today now) in
  let probe_path :=
    os_path_join DATA_DIR ((Student.student_id user ++ "_probe") ++ ".jpg") in
  students (db st') = students (db st) /\
  (forall file, file <> realpath probe_path -> files st' !! file = files st !! file).
Proof.
  intros st' probe_path. subst st'. unfold checkin_button.
  destruct (negb (truthy lec_code) || negb (captured photo)); [now simpl|].
  destruct photo as [img|]; [|now simpl]. unfold save_face. fold probe_path.
  destruct (save_error probe_path); [now simpl|].
  assert (Hf : forall file, file <> realpath probe_path ->
                 <[realpath probe_path := PIL_rgb_jpeg img]> (files st) !! file
                 = files st !! file)
    by (intros file Hp; now rewrite lookup_insert_ne).
  destruct (verify_faces _ _ _ _ _) as [[ok dist]|cls]; [|now simpl].
  destruct ok; simpl; [|now split].
  pose proof (ledger_check_in_grows (Student.student_id user) lec_code lec_title
                today now (db st)) as (Hs & _).
  destruct (ledger_check_in _ _ _ _ _ _) as [d msg]. simpl in *. now split.
Qed.

(** X18.  Check-in never touches [students], and the only file it writes is
    the one the probe path of the student checking in names: every other
    file, identified by its real path, holds what it held. *)
Theorem checkin_frame st user lec_code lec_title photo today now :
  let st' := fst (checkin_button PIL_rgb_jpeg realpath save_error Facenet
                    st user lec_code lec_title photo today now) in
  let probe_path :=
    os_path_join DATA_DIR ((Student.student_id user ++ "_probe") ++ ".jpg") in
  students (db st') = students (db st) /\
  (forall file, file <> realpath probe_path -> files st' !! file = files st !! file).
Proof. apply checkin_button_frame. Qed.

Lemma checkin_recorded_inv st user lec_code lec_title photo today now :
  snd (checkin_button PIL_rgb_jpeg realpath save_error
          Facenet st user lec_code lec_title photo today now) = Recorded ->
  let st' := fst (checkin_button PIL_rgb_jpeg realpath save_error
                     Facenet st user lec_code lec_title photo today now) in
  exists lec_id,
    select_lecture_id lec_code (db st') = Some lec_id /\
    attendances (db st') =
      (attendances (db st) ++
       [Attendance.mk (next_rowid (map Attendance.id (attendances (db st))))
                      (Student.student_id user) lec_id now])%list.
Proof.
  intros Hrec.
  destruct photo as [img|];
    [|rewrite checkin_button_missing in Hrec by auto; discriminate].
  destruct (truthy lec_code) eqn:Hcode;
    [|unfold checkin_button in Hrec; rewrite Hcode in Hrec; discriminate].
  rewrite checkin_button_guarded in * by exact Hcode.
  destruct (verdict st user img) as [[ok dist]|cls]; [|discriminate].
  destruct ok; simpl in *; [|discriminate].
  pose proof (ledger_check_in_message (Student.student_id user) lec_code lec_title
                today now (db st)) as Hm.
  pose proof (ledger_check_in_db (Student.student_id user) lec_code lec_title
                today now (db st)) as Hd.
  destruct (ledger_check_in _ _ _ _ _ _) as [d msg]. simpl in *. subst msg.
  destruct (Nat.eqb _ 0); [|discriminate]. subst d.
  exists (snd (resolve_lecture lec_code lec_title today (db st))). split.
  - rewrite select_lecture_insert_attendance. apply select_lecture_after_resolve.
  - simpl. now rewrite resolve_lecture_attendances.
Qed.

(** X19.  What "Check-in successful" stores: one new row at the end of
    [attendances], with a fresh rowid, for the student of the session and
    the lecture the code now resolves to, at the time given. *)
Theorem checkin_recorded_stores st user lec_code lec_title photo today now :
  snd (checkin_button PIL_rgb_jpeg realpath save_error
          Facenet st user lec_code lec_title photo today now) = Recorded ->
  let st' := fst (checkin_button PIL_rgb_jpeg realpath save_error
                     Facenet st user lec_code lec_title photo today now) in
  exists lec_id,
    select_lecture_id lec_code (db st') = Some lec_id /\
    attendances (db st') =
      (attendances (db st) ++
       [Attendance.mk (next_rowid (map Attendance.id (attendances (db st))))
                      (Student.student_id user) lec_id now])%list.
Proof. apply checkin_recorded_inv. Qed.

(** X20.  "Already checked in" leaves [attendances] as it was. *)
Theorem checkin_already_keeps_attendances st user lec_code lec_title photo today now :
  snd (checkin_button PIL_rgb_jpeg realpath save_error
          Facenet st user lec_code lec_title photo today now) = AlreadyCheckedIn ->
  attendances (db (fst (checkin_button PIL_rgb_jpeg realpath save_error
                           Facenet st user lec_code lec_title photo today now)))
    = attendances (db st).
Proof.
  intros Hal.
  destruct photo as [img|];
    [|rewrite checkin_button_missing in Hal by auto; discriminate].
  destruct (truthy lec_code) eqn:Hcode;
    [|unfold checkin_button in Hal; rewrite Hcode in Hal; discriminate].
  rewrite checkin_button_guarded in * by exact Hcode.
  destruct (verdict st user img) as [[ok dist]|cls]; [|discriminate].
  destruct ok; simpl in *; [|discriminate].
  pose proof (ledger_check_in_message (Student.student_id user) lec_code lec_title
                today now (db st)) as Hm.
  pose proof (ledger_check_in_db (Student.student_id user) lec_code lec_title
                today now (db st)) as Hd.
  destruct (ledger_check_in _ _ _ _ _ _) as [d msg]. simpl in *. subst msg.
  destruct (Nat.eqb _ 0); [discriminate|]. subst d.
  apply resolve_lecture_attendances.
Qed.

End CheckinMore.

Lemma verify_faces_match_sound_witness :
  verify_faces Sample.realpath Sample.facenet
    {[ "data/S100.jpg" := Sample.faceA; "data/S100_probe.jpg" := Sample.faceA ]}
    "data/./S100.jpg" "data/S100_probe.jpg" = Return (true, 0.0%float) /\
  exists img1 img2,
    read_file Sample.realpath
      {[ "data/S100.jpg" := Sample.faceA; "data/S100_probe.jpg" := Sample.faceA ]}
      "data/./S100.jpg" = Some img1 /\
    read_file Sample.realpath
      {[ "data/S100.jpg" := Sample.faceA; "data/S100_probe.jpg" := Sample.faceA ]}
      "data/S100_probe.jpg" = Some img2 /\
    Sample.facenet img1 img2 = Return (true, 0.0%float).
Proof.
  split; [vm_compute; reflexivity|].
  apply (verify_faces_match_sound Sample.realpath Sample.facenet).
  vm_compute; reflexivity.
Defined.

(** Alice presses Check-in without a capture. *)
Lemma checkin_missing_input_writes_nothing_witness :
  checkin_button Sample.rgb Sample.realpath Sample.save_error
      Sample.facenet Sample.registered Sample.alice
    "CS101-2025-09-05" "Intro" None "2025-09-05" "2025-09-05T09:00:00"
    = (Sample.registered, LectureCodeMissing).
Proof.
  apply (checkin_missing_input_writes_nothing Sample.rgb Sample.realpath
           Sample.save_error Sample.facenet).
  right. reflexivity.
Defined.

(** Alice's first check-in creates the lecture and her row. *)
Lemma checkin_writes_only_on_match_witness :
  exists img dist,
    Some Sample.faceA = Some img /\ truthy "CS101-2025-09-05" = true /\
    probe_verdict Sample.rgb Sample.realpath Sample.save_error
        Sample.facenet Sample.registered Sample.alice img
      = Return (true, dist).
Proof.
  apply (checkin_writes_only_on_match Sample.rgb Sample.realpath Sample.save_error
            Sample.facenet Sample.registered
           Sample.alice "CS101-2025-09-05" "Intro" (Some Sample.faceA)
           "2025-09-05" "2025-09-05T09:00:00").
  left. vm_compute. discriminate.
Defined.

Lemma checkin_recorded_stores_witness :
  let r := checkin_button Sample.rgb Sample.realpath Sample.save_error
      Sample.facenet Sample.registered Sample.alice
      "CS101-2025-09-05" "Intro" (Some Sample.faceA)
      "2025-09-05" "2025-09-05T09:00:00" in
  snd r = Recorded /\
  exists lec_id,
    select_lecture_id "CS101-2025-09-05" (db (fst r)) = Some lec_id /\
    attendances (db (fst r)) =
      (attendances (db Sample.registered) ++
       [Attendance.mk (next_rowid (map Attendance.id
                                       (attendances (db Sample.registered))))
                      "S100" lec_id "2025-09-05T09:00:00"])%list.
Proof.
  split; [vm_compute; reflexivity|].
  apply (checkin_recorded_stores Sample.rgb Sample.realpath Sample.save_error
            Sample.facenet Sample.registered
           Sample.alice "CS101-2025-09-05" "Intro" (Some Sample.faceA)
           "2025-09-05" "2025-09-05T09:00:00").
  vm_compute; reflexivity.
Defined.

Lemma checkin_already_keeps_attendances_witness :
  snd (checkin_button Sample.rgb Sample.realpath Sample.save_error
          Sample.facenet Sample.attended Sample.alice
         "CS101-2025-09-05" "Intro" (Some Sample.faceA)
         "2025-09-05" "2025-09-05T10:00:00") = AlreadyCheckedIn /\
  attendances (db (fst (checkin_button Sample.rgb Sample.realpath Sample.save_error
                           Sample.facenet Sample.attended
                          Sample.alice "CS101-2025-09-05" "Intro" (Some Sample.faceA)
                          "2025-09-05" "2025-09-05T10:00:00")))
    = attendances (db Sample.attended).
Proof.
  split; [vm_compute; reflexivity|].
  apply (checkin_already_keeps_attendances Sample.rgb Sample.realpath Sample.save_error
            Sample.facenet).
  vm_compute; reflexivity.
Defined.

(** ** Lectures are created lazily and never renamed *)

Section LazyLectures.

Variable PIL_rgb_jpeg : image -> image.
Variable realpath : string -> string.
Variable save_error : string -> option string.
Variable Facenet : image -> image -> py_result (bool * float).

(** X21.  A check-in with a code some lecture has leaves [lectures] as it is,
    whatever title was typed: the title of the first check-in stays. *)
Theorem checkin_known_code_keeps_lectures
    st user lec_code lec_title photo today now lec_id :
  select_lecture_id lec_code (db st) = Some lec_id ->
  lectures (db (fst (checkin_button PIL_rgb_jpeg realpath save_error
                        Facenet st user lec_code lec_title photo today now)))
    = lectures (db st).
Proof.
  intros Hlec. unfold checkin_button.
  destruct (negb (truthy lec_code) || negb (captured photo)); [reflexivity|].
  destruct photo as [img|]; [|reflexivity].
  destruct (save_face _ _ _ _ _ _) as [[probe_path fs]|cls0]; [|reflexivity].
  destruct (verify_faces _ _ _ _ _) as [[ok dist]|cls]; [|reflexivity].
  destruct ok; simpl; [|reflexivity].
  rewrite ledger_check_in_cases, (resolve_lecture_known _ _ _ _ _ Hlec). simpl.
  now destruct (Nat.eqb _ 0).
Qed.

(** X22.  A matched check-in with a code no lecture has adds exactly one
    lecture, at the end of [lectures], with a fresh rowid, the code, the
    title typed and the date given. *)
Theorem checkin_new_code_creates_lecture
    st user lec_code lec_title img today now dist :
  truthy lec_code = true ->
  select_lecture_id lec_code (db st) = None ->
  probe_verdict PIL_rgb_jpeg realpath save_error
      Facenet st user img = Return (true, dist) ->
  lectures (db (fst (checkin_button PIL_rgb_jpeg realpath save_error
                        Facenet st user lec_code lec_title (Some img) today now)))
    = (lectures (db st) ++
       [Lecture.mk (next_rowid (map Lecture.id (lectures (db st))))
                   lec_code lec_title today])%list.
Proof.
  intros Hcode Hnew Hv. rewrite checkin_button_guarded, Hv by exact Hcode. simpl.
  rewrite ledger_check_in_cases. unfold resolve_lecture. rewrite Hnew. simpl.
  now destruct (Nat.eqb _ 0).
Qed.

(** X23.  The probe of a check-in is saved under the path that [save_face]
    gives the student id followed by [_probe].  A student registered
    under exactly that id, whose image path is one [img.save] accepts,
    has the registered image replaced by the capture, whatever the
    verifier then says. *)
Theorem checkin_overwrites_probe_named_student
    st user victim lec_code lec_title img today now :
  truthy lec_code = true ->
  Student.student_id victim = Student.student_id user ++ "_probe" ->
  Student.face_path victim =
    os_path_join DATA_DIR (Student.student_id victim ++ ".jpg") ->
  save_error (Student.face_path victim) = None ->
  read_file realpath
    (files (fst (checkin_button PIL_rgb_jpeg realpath save_error Facenet
                   st user lec_code lec_title (Some img) today now)))
    (Student.face_path victim) = Some (PIL_rgb_jpeg img).
Proof.
  intros Hcode Hid Hpath Hsave. rewrite checkin_button_guarded by exact Hcode.
  rewrite Hpath, Hid in Hsave.
  assert (Hsaved : read_file realpath
                     (probe_saved PIL_rgb_jpeg realpath save_error st user img)
                     (Student.face_path victim) = Some (PIL_rgb_jpeg img)).
  { unfold probe_saved, save_face, read_file. rewrite Hsave, Hpath, Hid.
    apply lookup_insert_eq. }
  destruct (probe_verdict _ _ _ _ _ _ _) as [[ok dist]|cls]; [|exact Hsaved].
  destruct ok; simpl; [|exact Hsaved].
  now destruct (ledger_check_in _ _ _ _ _ _).
Qed.

End LazyLectures.

(** Alice checks in again, with another title. *)
Lemma checkin_known_code_keeps_lectures_witness :
  select_lecture_id "CS101-2025-09-05" (db Sample.attended) = Some 1 /\
  lectures (db (fst (checkin_button Sample.rgb Sample.realpath Sample.save_error
                        Sample.facenet Sample.attended
                       Sample.alice "CS101-2025-09-05" "Another title"
                       (Some Sample.faceA) "2025-09-06" "2025-09-06T09:00:00")))
    = [Sample.cs101].
Proof.
  split; [reflexivity|].
  apply (checkin_known_code_keeps_lectures Sample.rgb Sample.realpath Sample.save_error
            Sample.facenet Sample.attended
           Sample.alice "CS101-2025-09-05" "Another title" (Some Sample.faceA)
           "2025-09-06" "2025-09-06T09:00:00" 1).
  reflexivity.
Defined.

Lemma checkin_new_code_creates_lecture_witness :
  lectures (db (fst (checkin_button Sample.rgb Sample.realpath Sample.save_error
                        Sample.facenet Sample.registered
                       Sample.alice "CS101-2025-09-05" "Intro"
                       (Some Sample.faceA) "2025-09-05" "2025-09-05T09:00:00")))
    = [Sample.cs101].
Proof.
  apply (checkin_new_code_creates_lecture Sample.rgb Sample.realpath Sample.save_error
            Sample.facenet Sample.registered
           Sample.alice "CS101-2025-09-05" "Intro" Sample.faceA
           "2025-09-05" "2025-09-05T09:00:00" 0.0%float);
    vm_compute; reflexivity.
Defined.

(** Alice checks in while a student is registered as S100_probe: that
    student's image, face B before, is Alice's capture afterwards. *)
Lemma checkin_overwrites_probe_named_student_witness :
  read_file Sample.realpath (files Sample.shadowed)
            (Student.face_path Sample.shadow) = Some Sample.faceB /\
  read_file Sample.realpath
    (files (fst (checkin_button Sample.rgb Sample.realpath Sample.save_error
                   Sample.facenet Sample.shadowed Sample.alice
                   "CS101-2025-09-05" "Intro" (Some Sample.faceA)
                   "2025-09-05" "2025-09-05T09:00:00")))
    (Student.face_path Sample.shadow) = Some (Sample.rgb Sample.faceA).
Proof.
  split; [vm_compute; reflexivity|].
  apply (checkin_overwrites_probe_named_student Sample.rgb Sample.realpath
           Sample.save_error Sample.facenet Sample.shadowed Sample.alice
           Sample.shadow);
    reflexivity.
Defined.

(** ** The Dashboard page *)

Lemma lec_map_fold_lookup (lecs : list Lecture.row) :
  forall (m : gmap string Z) (k : string),
    foldl (fun m l => <[lecture_label l := Lecture.id l]> m) m lecs !! k =
    match last (List.filter (fun l => String.eqb (lecture_label l) k) lecs) with
    | Some l => Some (Lecture.id l)
    | None => m !! k
    end.
Proof.
  induction lecs as [|l lecs IH]; intros m k; simpl; [reflexivity|].
  rewrite IH. destruct (String.eqb_spec (lecture_label l) k) as [He|Hne].
  - rewrite last_cons.
    destruct (last (List.filter _ lecs)); [reflexivity|].
    rewrite He. apply lookup_insert_eq.
  - destruct (last (List.filter _ lecs)); [reflexivity|].
    now rewrite lookup_insert_ne.
Qed.

Lemma lec_map_fold_non_empty (lecs : list Lecture.row) :
  forall m : gmap string Z,
    m <> ∅ -> foldl (fun m l => <[lecture_label l := Lecture.id l]> m) m lecs <> ∅.
Proof.
  induction lecs as [|l lecs IH]; intros m Hm; simpl; [exact Hm|].
  apply IH, insert_non_empty.
Qed.

Lemma lec_map_empty (lecs : list Lecture.row) : lec_map lecs = ∅ <-> lecs = [].
Proof.
  split; [|now intros ->].
  destruct lecs as [|l lecs]; [reflexivity|]. unfold lec_map. simpl. intros H.
  exfalso. revert H. apply lec_map_fold_non_empty, insert_non_empty.
Qed.

Lemma select_lectures_nil d : select_lectures d = [] <-> lectures d = [].
Proof.
  pose proof (order_by_perm date_desc (lectures d)) as Hp. fold (select_lectures d) in Hp.
  split; intros H.
  - rewrite H in Hp. now apply Permutation_nil.
  - rewrite H in Hp. symmetry in Hp. now apply Permutation_nil.
Qed.

Lemma lec_map_lookup (lecs : list Lecture.row) (lec_choice : string) :
  lec_map lecs !! lec_choice =
  Lecture.id <$>
    last (List.filter (fun l => String.eqb (lecture_label l) lec_choice) lecs).
Proof.
  unfold lec_map. rewrite lec_map_fold_lookup.
  destruct (last _); [reflexivity|]. apply lookup_empty.
Qed.

(** The select box of the Dashboard has one entry per label, [code -
    date]; the entry of a label stands for the last lecture of the listing
    that has it. *)
Theorem lec_map_last_wins (lecs : list Lecture.row) (lec_choice : string) :
  lec_map lecs !! lec_choice =
  Lecture.id <$>
    last (List.filter (fun l => String.eqb (lecture_label l) lec_choice) lecs).
Proof. apply lec_map_lookup. Qed.

(** X27.  What the Dashboard page shows: "No lectures yet." exactly when
    [lectures] is empty; otherwise, for the label chosen, the attendance
    listing of the last lecture of the lecture listing with that label
    (nothing for an empty label; a label no lecture has, which the select
    box never offers, would be a [KeyError]). *)
Theorem dashboard_page_exact (st : store) (lec_choice : string) :
  dashboard_page st lec_choice =
  (st,
   match lectures (db st) with
   | [] => NoLectures
   | _ :: _ =>
       if truthy lec_choice then
         match last (List.filter
                       (fun l => String.eqb (lecture_label l) lec_choice)
                       (select_lectures (db st))) with
         | Some l => Table lec_choice (select_attendance (Lecture.id l) (db st))
         | None => Uncaught "KeyError"
         end
       else Nothing
   end).
Proof.
  unfold dashboard_page.
  destruct (lectures (db st)) as [|l0 ls] eqn:El.
  - assert (Hs : select_lectures (db st) = []) by now apply select_lectures_nil.
    rewrite Hs. reflexivity.
  - rewrite bool_decide_eq_false_2.
    + destruct (truthy lec_choice); [|reflexivity].
      rewrite lec_map_lookup. now destruct (last _).
    + rewrite lec_map_empty, select_lectures_nil, El. discriminate.
Qed.

(** ** The attendance listing in reachable states *)

Lemma filter_unique_key {A : Type} (f : A -> string) (l : list A) (x : A) :
  List.NoDup (map f l) -> In x l ->
  List.filter (fun y => String.eqb (f y) (f x)) l = [x].
Proof.
  induction l as [|y l IH]; simpl; [tauto|]. intros Hnd Hin.
  inversion Hnd as [|? ? Hy Hl]; subst.
  assert (Hnone : forall z, f z = f y -> List.filter (fun y' => String.eqb (f y') (f z)) l = []).
  { intros z Hz.
    destruct (List.filter (fun y' => String.eqb (f y') (f z)) l) as [|w ws] eqn:F;
      [reflexivity|].
    exfalso. assert (Hw : In w (List.filter (fun y' => String.eqb (f y') (f z)) l))
      by (rewrite F; now left).
    apply filter_In in Hw. destruct Hw as [Hw He]. apply String.eqb_eq in He.
    apply Hy. rewrite <- Hz, <- He. now apply in_map. }
  destruct Hin as [->|Hin].
  - rewrite String.eqb_refl. f_equal. now apply Hnone.
  - destruct (String.eqb_spec (f y) (f x)) as [He|Hne]; [|now apply IH].
    exfalso. apply Hy. rewrite He. now apply in_map.
Qed.

Lemma attendance_rows_single a d s :
  List.NoDup (map Student.student_id (students d)) ->
  In s (students d) -> Student.student_id s = Attendance.student_id a ->
  attendance_rows a d = [(Attendance.timestamp a, Student.student_id s, Student.name s)].
Proof.
  intros Hnd Hin He. unfold attendance_rows. rewrite <- He.
  now rewrite (filter_unique_key Student.student_id _ s Hnd Hin).
Qed.

Lemma join_rows_registered d (l : list Attendance.row) :
  List.NoDup (map Student.student_id (students d)) ->
  Forall (fun a => In (Attendance.student_id a)
                      (map Student.student_id (students d))) l ->
  length (flat_map (fun a => attendance_rows a d) l) = length l /\
  map (fun r : listing_row => snd (fst r)) (flat_map (fun a => attendance_rows a d) l)
    = map Attendance.student_id l.
Proof.
  intros Hnd. induction 1 as [|a l Ha Hl IH]; simpl; [now split|].
  apply in_map_iff in Ha. destruct Ha as (s & He & Hin).
  rewrite (attendance_rows_single a d s Hnd Hin He). simpl.
  destruct IH as [IH1 IH2]. rewrite IH1, IH2, He. now split.
Qed.

Lemma lecture_attendees_distinct lec_id (l : list Attendance.row) :
  (forall sid, (length (List.filter (attendance_matches sid lec_id) l) <= 1)%nat) ->
  List.NoDup
    (map Attendance.student_id
         (List.filter (fun a => Z.eqb (Attendance.lecture_id a) lec_id) l)).
Proof.
  induction l as [|a l IH]; simpl; intros Hu; [constructor|].
  assert (Hl : forall sid,
             (length (List.filter (attendance_matches sid lec_id) l) <= 1)%nat).
  { intros sid. specialize (Hu sid).
    destruct (attendance_matches sid lec_id a); simpl in Hu; lia. }
  destruct (Z.eqb_spec (Attendance.lecture_id a) lec_id) as [He|Hne]; [|now apply IH].
  simpl. constructor; [|now apply IH].
  intros Hin. apply in_map_iff in Hin. destruct Hin as (a' & Hs & Hin').
  apply filter_In in Hin'. destruct Hin' as [Hin' Hlec]. apply Z.eqb_eq in Hlec.
  specialize (Hu (Attendance.student_id a)).
  assert (Ha : attendance_matches (Attendance.student_id a) lec_id a = true)
    by (apply attendance_matches_spec; auto).
  rewrite Ha in Hu. simpl in Hu.
  assert (Ha' : In a' (List.filter (attendance_matches (Attendance.student_id a) lec_id) l))
    by (apply filter_In; split; [exact Hin'|apply attendance_matches_spec; auto]).
  destruct (List.filter (attendance_matches (Attendance.student_id a) lec_id) l);
    [destruct Ha'|simpl in Hu; lia].
Qed.

Lemma Forall_list_filter {A : Type} (P : A -> Prop) (f : A -> bool) (l : list A) :
  Forall P l -> Forall P (List.filter f l).
Proof.
  rewrite !List.Forall_forall. intros H x Hx. apply filter_In in Hx. now apply H.
Qed.

Section Listing.

Variable PIL_rgb_jpeg : image -> image.
Variable realpath : string -> string.
Variable save_error : string -> option string.
Variable Facenet : image -> image -> py_result (bool * float).
Variable generate_password_hash : string -> string -> string.
Variable check_password_hash : string -> string -> bool.

(** X28.  In every state the application reaches, the attendance listing of a
    lecture has exactly one row per check-in to that lecture (the join
    drops none and doubles none), and no student appears in it twice. *)
Theorem reached_listing_one_row_per_checkin (rs : list request) (lec_id : Z) :
  let d := db (persistent (run PIL_rgb_jpeg realpath save_error Facenet
                               generate_password_hash check_password_hash init_world rs)) in
  length (select_attendance lec_id d) = length (lecture_attendances lec_id d) /\
  map (fun r : listing_row => snd (fst r)) (join_attendance lec_id d)
    = map Attendance.student_id (lecture_attendances lec_id d) /\
  List.NoDup (map (fun r : listing_row => snd (fst r)) (select_attendance lec_id d)).
Proof.
  intros d.
  pose proof (reached_well_formed PIL_rgb_jpeg realpath save_error
                 Facenet generate_password_hash
                check_password_hash rs) as [(_ & (Hsid & _) & _ & _ & Hreg) _ _].
  fold d in Hsid, Hreg.
  assert (Hu : unique_attendance d).
  { apply run_unique. intros sid l. unfold attendance_count. simpl. lia. }
  pose proof (join_rows_registered d (lecture_attendances lec_id d) Hsid
                (Forall_list_filter _ _ _ Hreg)) as [Hlen Hmap].
  pose proof (order_by_perm timestamp_asc (join_attendance lec_id d)) as Hp.
  fold (select_attendance lec_id d) in Hp.
  split; [|split].
  - rewrite (Permutation_length Hp). exact Hlen.
  - exact Hmap.
  - eapply Permutation_NoDup.
    + apply Permutation_map. symmetry. exact Hp.
    + unfold join_attendance. rewrite Hmap.
      apply lecture_attendees_distinct. intros sid. apply Hu.
Qed.

End Listing.

Section Listed.

Variable PIL_rgb_jpeg : image -> image.
Variable realpath : string -> string.
Variable save_error : string -> option string.
Variable Facenet : image -> image -> py_result (bool * float).

(** X29.  Check-in then Dashboard: after "Check-in successful" for a user who
    is a row of [students], the attendance listing of the lecture the
    code resolves to has the row of that check-in: its time, the student
    id and the name. *)
Theorem checkin_recorded_is_listed st user lec_code lec_title photo today now :
  In user (students (db st)) ->
  snd (checkin_button PIL_rgb_jpeg realpath save_error
          Facenet st user lec_code lec_title photo today now) = Recorded ->
  let st' := fst (checkin_button PIL_rgb_jpeg realpath save_error
                     Facenet st user lec_code lec_title photo today now) in
  exists lec_id,
    select_lecture_id lec_code (db st') = Some lec_id /\
    In (now, Student.student_id user, Student.name user)
       (select_attendance lec_id (db st')).
Proof.
  intros Huser Hrec st'.
  destruct (checkin_recorded_inv PIL_rgb_jpeg realpath save_error Facenet
              st user lec_code lec_title photo today now Hrec)
    as (lec_id & Hlec & Hatt).
  fold st' in Hlec, Hatt.
  assert (Hs : students (db st') = students (db st))
    by apply (checkin_button_frame PIL_rgb_jpeg realpath save_error Facenet).
  exists lec_id. split; [exact Hlec|].
  eapply Permutation_in; [symmetry; apply order_by_perm|].
  apply join_attendance_in.
  exists (Attendance.mk (next_rowid (map Attendance.id (attendances (db st))))
                        (Student.student_id user) lec_id now), user.
  rewrite Hatt, Hs, in_app_iff. simpl. auto 10.
Qed.

End Listed.

Lemma checkin_recorded_is_listed_witness :
  let r := checkin_button Sample.rgb Sample.realpath Sample.save_error
      Sample.facenet Sample.registered Sample.alice
      "CS101-2025-09-05" "Intro" (Some Sample.faceA)
      "2025-09-05" "2025-09-05T09:00:00" in
  exists lec_id,
    select_lecture_id "CS101-2025-09-05" (db (fst r)) = Some lec_id /\
    In ("2025-09-05T09:00:00", "S100", "Alice") (select_attendance lec_id (db (fst r))).
Proof.
  apply (checkin_recorded_is_listed Sample.rgb Sample.realpath Sample.save_error
            Sample.facenet Sample.registered
           Sample.alice "CS101-2025-09-05" "Intro" (Some Sample.faceA)
           "2025-09-05" "2025-09-05T09:00:00").
  - left. reflexivity.
  - vm_compute; reflexivity.
Defined.

(** ** Image files *)

Section Images.

Variable PIL_rgb_jpeg : image -> image.
Variable realpath : string -> string.
Variable save_error : string -> option string.
Variable Facenet : image -> image -> py_result (bool * float).
Variable generate_password_hash : string -> string -> string.


(** X24.  A check-in leaves the registered image of a student as it is,
    unless the student's image path names the file of the probe, which
    is [data/<student_id>_probe.jpg] for the user checking in. *)
Theorem checkin_keeps_registered_faces
    st user v lec_code lec_title photo today now :
  realpath (Student.face_path v)
    <> realpath (os_path_join DATA_DIR
                   ((Student.student_id user ++ "_probe") ++ ".jpg")) ->
  read_file realpath
    (files (fst (checkin_button PIL_rgb_jpeg realpath save_error Facenet
                   st user lec_code lec_title photo today now)))
    (Student.face_path v)
  = read_file realpath (files st) (Student.face_path v).
Proof.
  intros Hne. unfold read_file.
  now apply (checkin_button_frame PIL_rgb_jpeg realpath save_error Facenet).
Qed.

(** X25.  A registration, accepted, refused or stopped by [img.save], writes
    at most the file that [data/<student_id>.jpg] names: the registered
    image of a student whose path names another file reads as before.
    Files are compared by what their paths name, not by how the paths
    are spelt. *)
Theorem register_keeps_other_faces st sid name email pw photo salt now v :
  realpath (Student.face_path v)
    <> realpath (os_path_join DATA_DIR (sid ++ ".jpg")) ->
  read_file realpath
    (files (fst (register_button PIL_rgb_jpeg realpath save_error
                   generate_password_hash st sid name email pw photo salt now)))
    (Student.face_path v)
  = read_file realpath (files st) (Student.face_path v).
Proof.
  intros Hne. unfold register_button, read_file.
  destruct (negb _); [reflexivity|].
  destruct photo as [img|]; [|reflexivity]. unfold save_face.
  destruct (save_error _); [reflexivity|].
  destruct (insert_student _ _ _ _ _ _ _) as [d|cls]; simpl.
  - now rewrite lookup_insert_ne.
  - destruct (String.eqb cls _); simpl; now rewrite lookup_insert_ne.
Qed.

End Images.


(** Alice checks in with a stranger's face: her registered image is still
    face A. *)
Lemma checkin_keeps_registered_faces_witness :
  read_file Sample.realpath
    (files (fst (checkin_button Sample.rgb Sample.realpath Sample.save_error
                   Sample.facenet Sample.registered Sample.alice
                   "CS101-2025-09-05" "Intro" (Some Sample.faceB)
                   "2025-09-05" "2025-09-05T09:00:00")))
    (Student.face_path Sample.alice)
  = read_file Sample.realpath (files Sample.registered)
      (Student.face_path Sample.alice).
Proof.
  apply (checkin_keeps_registered_faces Sample.rgb Sample.realpath
           Sample.save_error Sample.facenet Sample.registered
           Sample.alice Sample.alice).
  vm_compute. discriminate.
Defined.

(** Mallory registers with Alice's email under another id: refused, and
    Alice's image is untouched. *)
Lemma register_keeps_other_faces_witness :
  read_file Sample.realpath
    (files (fst (register_button Sample.rgb Sample.realpath Sample.save_error
                   Sample.hash Sample.registered
                   "S999" "Mallory" "alice@x.com" "pw" (Some Sample.faceB)
                   "salt" "2025-09-02T08:00:00")))
    (Student.face_path Sample.alice)
  = read_file Sample.realpath (files Sample.registered)
      (Student.face_path Sample.alice).
Proof.
  apply (register_keeps_other_faces Sample.rgb Sample.realpath
           Sample.save_error Sample.hash Sample.registered
           "S999" "Mallory" "alice@x.com" "pw" (Some Sample.faceB)
           "salt" "2025-09-02T08:00:00" Sample.alice).
  vm_compute. discriminate.
Defined.

(** Two spellings of one file.  A registration under the id ./S100 is
    accepted, since no student has that id, and its image replaces
    Alice's: [data/./S100.jpg] and [data/S100.jpg] are one file. *)
Example register_alias_replaces_image :
  let r := register_button Sample.rgb Sample.realpath Sample.save_error
             Sample.hash Sample.registered
             "./S100" "Mallory" "mallory@x.com" "pw" (Some Sample.faceB)
             "salt" "2025-09-02T08:00:00" in
  snd r = Registered /\
  read_file Sample.realpath (files Sample.registered)
            (Student.face_path Sample.alice) = Some Sample.faceA /\
  read_file Sample.realpath (files (fst r))
            (Student.face_path Sample.alice) = Some Sample.faceB.
Proof. repeat split; vm_compute; reflexivity. Qed.

(** [save_face] where [img.save] raises: an empty name gives the file name
    [.jpg], in which PIL finds no extension, and a name with a slash
    points into a directory that is not there. *)
Example save_face_raises :
  save_face Sample.rgb Sample.realpath Sample.save_error
            EmptyString Sample.faceA ∅ = Raise "ValueError" /\
  save_face Sample.rgb Sample.realpath Sample.save_error
            "CSC/22D/4441" Sample.faceA ∅ = Raise "FileNotFoundError".
Proof. split; reflexivity. Qed.

(** Alice checks in: Bob's image, had he one, is not written. *)
Lemma checkin_frame_witness :
  files (fst (checkin_button Sample.rgb Sample.realpath Sample.save_error
                Sample.facenet Sample.registered Sample.alice
                "CS101-2025-09-05" "Intro" (Some Sample.faceA)
                "2025-09-05" "2025-09-05T09:00:00")) !! "data/S200.jpg"
    = files Sample.registered !! "data/S200.jpg".
Proof.
  apply (proj2 (checkin_frame Sample.rgb Sample.realpath Sample.save_error
                  Sample.facenet Sample.registered Sample.alice
                  "CS101-2025-09-05" "Intro" (Some Sample.faceA)
                  "2025-09-05" "2025-09-05T09:00:00") "data/S200.jpg").
  vm_compute. discriminate.
Defined.
